(** * OOGL array wrappers (Arrays.js): a shallow embedding

    The wrappers [context.AttributeArray], [context.AttributeArrays] and
    [context.ElementArray] are closures over a WebGL context.  They are
    embedded as functions in a state-and-exception monad over a [world]
    made of the JavaScript heap (arrays are shared by reference), the
    storage of the GL buffers, and the log of the calls issued on the
    graphics context. *)

From Stdlib Require Import ZArith String Ascii List Lia Bool DecimalString.
From stdpp Require Import base option list.
Import ListNotations.

Local Open Scope string_scope.
Local Open Scope list_scope.

(** ** JavaScript values *)

(** Primitive values that reach the `type`, `buffer_type` and `normalize`
    parameters.  [VNum] holds integer-valued numbers. *)
Inductive value :=
| VUndefined
| VNull
| VBool (b : bool)
| VNum (n : Z)
| VStr (s : string).

(** `!!v` *)
Definition truthy (v : value) : bool :=
  match v with
  | VUndefined | VNull => false
  | VBool b => b
  | VNum n => negb (n =? 0)%Z
  | VStr s => negb (String.eqb s "")
  end.

(** The property key a primitive is converted to by `o[v]` and
    `o.hasOwnProperty(v)`. *)
Definition to_key (v : value) : string :=
  match v with
  | VUndefined => "undefined"
  | VNull => "null"
  | VBool true => "true"
  | VBool false => "false"
  | VNum n => NilZero.string_of_int (Z.to_int n)
  | VStr s => s
  end.

(** An optional numeric argument: [None] is `undefined` (also what an
    omitted parameter reads as). *)
Definition num := option Z.

(** `x || d` on an optional number. *)
Definition or_default (x : num) (d : Z) : Z :=
  match x with
  | Some n => if (n =? 0)%Z then d else n
  | None => d
  end.

(** Object literals used as tables: own properties in source order. *)
Definition object (A : Type) := list (string * A).

Fixpoint get_own {A} (o : object A) (k : string) : option A :=
  match o with
  | [] => None
  | (k', x) :: o' => if String.eqb k' k then Some x else get_own o' k
  end.

Definition hasOwnProperty {A} (o : object A) (v : value) : bool :=
  match get_own o (to_key v) with Some _ => true | None => false end.

(** ** The graphics context *)

Inductive gl_enum :=
| BYTE | UNSIGNED_BYTE | SHORT | UNSIGNED_SHORT | FLOAT
| TRIANGLES | TRIANGLE_FAN | TRIANGLE_STRIP
| ARRAY_BUFFER | ELEMENT_ARRAY_BUFFER.

(** The buffer classes of Buffers.js that Arrays.js instantiates. *)
Inductive buffer_class :=
| StaticArrayBuffer | StreamArrayBuffer | DynamicArrayBuffer
| StaticElementArrayBuffer.

(** References to JavaScript arrays and GL buffer handles. *)
Abbreviation loc := nat (only parsing).
Abbreviation handle := nat (only parsing).

(** Calls observed on the context and on buffer objects, in program order.
    Array arguments are recorded by their contents at the time of the call. *)
Inductive event :=
| NewBuffer (cls : buffer_class) (type : value) (h : handle)
| BindAndData (h : handle) (data : list Z)
| SubData (h : handle) (pos : nat) (data : list Z)
| EnableVertexAttribArray (index : Z)
| DisableVertexAttribArray (index : Z)
| BindBuffer (target : gl_enum) (h : handle)
| VertexAttribPointer (index size : Z) (type : gl_enum) (normalized : bool)
    (stride offset : Z)
| DrawArrays (mode : gl_enum) (first count : num)
| DrawElements (mode : gl_enum) (count : Z) (type : gl_enum) (offset : Z).

Record world := mkWorld {
  w_heap : list (list Z);
  w_buffers : list (list Z);
  w_log : list event
}.

(** ** The monad of wrapper code *)

Inductive thrown :=
| ThrowValue (v : value)
| TypeError.

Inductive outcome (A : Type) :=
| Ok (a : A)
| Throw (t : thrown).
Arguments Ok {A} a.
Arguments Throw {A} t.

Definition M (A : Type) : Type := world -> outcome A * world.

Definition ret {A} (a : A) : M A := fun w => (Ok a, w).

Definition bind {A B} (c : M A) (k : A -> M B) : M B :=
  fun w =>
    match c w with
    | (Ok a, w') => k a w'
    | (Throw t, w') => (Throw t, w')
    end.

Definition throw {A} (t : thrown) : M A := fun w => (Throw t, w).

#[global] Instance M_ret : MRet M := @ret.
#[global] Instance M_bind : MBind M := fun A B k c => bind c k.

Definition emit (e : event) : M unit :=
  fun w => (Ok tt, mkWorld (w_heap w) (w_buffers w) (w_log w ++ [e])).

(** Iteration of a loop body over successive values of its counter. *)
Fixpoint for_each (idxs : list nat) (body : nat -> M unit) : M unit :=
  match idxs with
  | [] => ret tt
  | i :: rest => body i;; for_each rest body
  end.

(** *** JavaScript arrays on the heap *)

Definition heap_get (hp : list (list Z)) (l : loc) : list Z :=
  default [] (hp !! l).

Definition get_array (l : loc) : M (list Z) :=
  fun w => (Ok (heap_get (w_heap w) l), w).

Definition set_array (l : loc) (a : list Z) : M unit :=
  fun w => (Ok tt, mkWorld (<[l := a]> (w_heap w)) (w_buffers w) (w_log w)).

(** `a.slice()`: a fresh array holding the elements of `a`. *)
Definition Array_slice (l : loc) : M loc :=
  fun w =>
    (Ok (length (w_heap w)),
     mkWorld (w_heap w ++ [heap_get (w_heap w) l]) (w_buffers w) (w_log w)).

(** ** Buffer objects (Buffers.js) *)

(** A buffer object: the GL handle, the class it was built from and the
    type name it was given. *)
Record buffer := mkBuffer {
  b_handle : handle;
  b_class : buffer_class;
  b_type : value
}.

(** Modelled from the spec: Buffers.js is not part of the sources at hand.
    The conversion of a JavaScript number to an element of the typed array
    a buffer of the given type name uploads; the documentation of
    [context.ElementArray] names the wrap of `ubyte` data to the 0-255
    range. *)
Definition to_typed (type : value) (z : Z) : Z :=
  let k := to_key type in
  if String.eqb k "ubyte" then (z mod 256)%Z
  else if String.eqb k "ushort" then (z mod 65536)%Z
  else if String.eqb k "byte" then ((z + 128) mod 256 - 128)%Z
  else if String.eqb k "short" then ((z + 32768) mod 65536 - 32768)%Z
  else z.

(** Modelled from the spec: Buffers.js is not part of the sources at hand.
    `new context.<cls>(type)` obtains a buffer handle from the context; the
    new buffer has no storage yet. *)
Definition new_Buffer (cls : buffer_class) (type : value) : M buffer :=
  fun w =>
    let h := length (w_buffers w) in
    (Ok (mkBuffer h cls type),
     mkWorld (w_heap w) (w_buffers w ++ [[]]) (w_log w ++ [NewBuffer cls type h])).

(** Modelled from the spec: Buffers.js is not part of the sources at hand.
    `buffer.bindAndData(data)` binds the buffer and (re)creates its storage
    from the array. *)
Definition Buffer_bindAndData (b : buffer) (data : loc) : M unit :=
  fun w =>
    let a := heap_get (w_heap w) data in
    (Ok tt,
     mkWorld (w_heap w)
       (<[b_handle b := map (to_typed (b_type b)) a]> (w_buffers w))
       (w_log w ++ [BindAndData (b_handle b) a])).

(** A sub-range update of a storage: the data overwrite the elements from
    [pos] on; an update that does not fit is rejected by the GL and leaves
    the storage as it was. *)
Definition write_at (pos : nat) (data store : list Z) : list Z :=
  if (pos + length data <=? length store)%nat
  then take pos store ++ data ++ drop (pos + length data) store
  else store.

(** Modelled from the spec: Buffers.js is not part of the sources at hand.
    `buffer.subData(pos, data)` uploads the array into the existing storage
    of the buffer (the spec's "sub-range update"); the buffer is the one its
    target is bound to, as the draw calls of Arrays.js assume too. *)
Definition Buffer_subData (b : buffer) (pos : nat) (data : loc) : M unit :=
  fun w =>
    let a := heap_get (w_heap w) data in
    let store := default [] (w_buffers w !! b_handle b) in
    (Ok tt,
     mkWorld (w_heap w)
       (<[b_handle b := write_at pos (map (to_typed (b_type b)) a) store]>
          (w_buffers w))
       (w_log w ++ [SubData (b_handle b) pos a])).

(** Modelled from the spec: Buffers.js is not part of the sources at hand.
    `buffer.bind()` binds the buffer to its target; the documentation of
    [AttributeArrays.bindAndPointer] states that the target of an attribute
    array is always `gl.ARRAY_BUFFER`. *)
Definition Buffer_bind (b : buffer) : M unit :=
  emit (BindBuffer
          (match b_class b with
           | StaticElementArrayBuffer => ELEMENT_ARRAY_BUFFER
           | _ => ARRAY_BUFFER
           end)
          (b_handle b)).

(** ** context.AttributeArray *)

Record type_info := mkType { glType : gl_enum; size : Z }.

Definition AttributeArray_types : object type_info :=
  [ ("byte", mkType BYTE 1);
    ("ubyte", mkType UNSIGNED_BYTE 1);
    ("short", mkType SHORT 2);
    ("ushort", mkType UNSIGNED_SHORT 2);
    ("float", mkType FLOAT 4) ].

Definition buffer_types : object buffer_class :=
  [ ("static", StaticArrayBuffer);
    ("stream", StreamArrayBuffer);
    ("dynamic", DynamicArrayBuffer) ].

(** A name between double quotes, as the messages write them. *)
Definition quoted (s : string) : string :=
  String (ascii_of_nat 34) (s ++ String (ascii_of_nat 34) EmptyString)%string.

Definition AttributeArray_error : string :=
  ("Invalid attribute type, must be one of " ++ quoted "byte" ++ ", "
    ++ quoted "ubyte" ++ ", " ++ quoted "short" ++ ", " ++ quoted "ushort"
    ++ " and " ++ quoted "float" ++ ".")%string.

(** The returned buffer, with what its added methods close over. *)
Record attribute_array := mkAttributeArray {
  aa_buffer : buffer;
  aa_index : Z;
  aa_type : value;
  aa_num : Z;
  aa_normalize : value
}.

(** `o[v]` for a table whose entry is then used: a missing entry makes the
    use (a call, `new`, or a property read) raise a TypeError. *)
Definition get_entry {A} (o : object A) (v : value) : M A :=
  match get_own o (to_key v) with
  | Some x => ret x
  | None => throw TypeError
  end.

Definition AttributeArray (index : Z) (type : value) (num : Z)
    (buffer_type : value) (data : loc) (normalize : value) : M attribute_array :=
  if negb (hasOwnProperty AttributeArray_types type)
  then throw (ThrowValue (VStr AttributeArray_error))
  else
    cls ← get_entry buffer_types buffer_type;
    buffer ← new_Buffer cls type;
    Buffer_bindAndData buffer data;;
    ret (mkAttributeArray buffer index type num normalize).

Definition AttributeArray_enable (a : attribute_array) : M unit :=
  emit (EnableVertexAttribArray (aa_index a)).

Definition AttributeArray_disable (a : attribute_array) : M unit :=
  emit (DisableVertexAttribArray (aa_index a)).

Definition AttributeArray_pointer (a : attribute_array) (stride offset : num)
    : M unit :=
  t ← get_entry AttributeArray_types (aa_type a);
  emit (VertexAttribPointer (aa_index a) (aa_num a) (glType t)
          (truthy (aa_normalize a))
          (or_default stride 0 * size t) (or_default offset 0 * size t)).

Definition AttributeArray_bindAndPointer (a : attribute_array)
    (stride offset : num) : M unit :=
  emit (BindBuffer ARRAY_BUFFER (b_handle (aa_buffer a)));;
  t ← get_entry AttributeArray_types (aa_type a);
  emit (VertexAttribPointer (aa_index a) (aa_num a) (glType t)
          (truthy (aa_normalize a))
          (or_default stride 0 * size t) (or_default offset 0 * size t)).

Definition AttributeArray_enableBindAndPointer (a : attribute_array)
    (stride offset : num) : M unit :=
  emit (EnableVertexAttribArray (aa_index a));;
  emit (BindBuffer ARRAY_BUFFER (b_handle (aa_buffer a)));;
  t ← get_entry AttributeArray_types (aa_type a);
  emit (VertexAttribPointer (aa_index a) (aa_num a) (glType t)
          (truthy (aa_normalize a))
          (or_default stride 0 * size t) (or_default offset 0 * size t)).

(** `context['AttributeArray' + num]`, `context['StreamAttributeArray' + num]`
    and `context['DynamicAttributeArray' + num]` for num in 1..4. *)
Definition AttributeArrayN (num : Z) (index : Z) (type : value) (data : loc)
    (normalize : value) : M attribute_array :=
  AttributeArray index type num (VStr "static") data normalize.

Definition StreamAttributeArrayN (num : Z) (index : Z) (type : value)
    (data : loc) (normalize : value) : M attribute_array :=
  AttributeArray index type num (VStr "stream") data normalize.

Definition DynamicAttributeArrayN (num : Z) (index : Z) (type : value)
    (data : loc) (normalize : value) : M attribute_array :=
  AttributeArray index type num (VStr "dynamic") data normalize.

(** ** context.AttributeArrays *)

(** The object returned by the constructor, through what its methods close
    over: the private `arrays` list and the `count` argument. *)
Record attribute_arrays := mkAttributeArrays {
  arrays : list attribute_array;
  all : num
}.

Definition AttributeArrays (count : num) : attribute_arrays :=
  mkAttributeArrays [] count.

(** `arrays.push(a)` *)
Definition push (s : attribute_arrays) (a : attribute_array) : attribute_arrays :=
  mkAttributeArrays (arrays s ++ [a]) (all s).

(** `arrays.length` *)
Definition arrays_length (s : attribute_arrays) : Z :=
  Z.of_nat (length (arrays s)).

Definition add1 (s : attribute_arrays) (type : value) (data : loc)
    (normalize : value) : M attribute_arrays :=
  a ← AttributeArrayN 1 (arrays_length s) type data normalize;
  mret (push s a).

Definition add1b (s : attribute_arrays) (data : loc) (normalize : value)
    : M attribute_arrays :=
  a ← AttributeArrayN 1 (arrays_length s) (VStr "byte") data normalize;
  mret (push s a).

Definition add1ub (s : attribute_arrays) (data : loc) (normalize : value)
    : M attribute_arrays :=
  a ← AttributeArrayN 1 (arrays_length s) (VStr "ubyte") data normalize;
  mret (push s a).

Definition add1s (s : attribute_arrays) (data : loc) (normalize : value)
    : M attribute_arrays :=
  a ← AttributeArrayN 1 (arrays_length s) (VStr "short") data normalize;
  mret (push s a).

Definition add1us (s : attribute_arrays) (data : loc) (normalize : value)
    : M attribute_arrays :=
  a ← AttributeArrayN 1 (arrays_length s) (VStr "ushort") data normalize;
  mret (push s a).

Definition add1f (s : attribute_arrays) (data : loc) (normalize : value)
    : M attribute_arrays :=
  a ← AttributeArrayN 1 (arrays_length s) (VStr "float") data normalize;
  mret (push s a).

Definition add2 (s : attribute_arrays) (type : value) (data : loc)
    (normalize : value) : M attribute_arrays :=
  a ← AttributeArrayN 2 (arrays_length s) type data normalize;
  mret (push s a).

Definition add2b (s : attribute_arrays) (data : loc) (normalize : value)
    : M attribute_arrays :=
  a ← AttributeArrayN 2 (arrays_length s) (VStr "byte") data normalize;
  mret (push s a).

Definition add2ub (s : attribute_arrays) (data : loc) (normalize : value)
    : M attribute_arrays :=
  a ← AttributeArrayN 2 (arrays_length s) (VStr "ubyte") data normalize;
  mret (push s a).

Definition add2s (s : attribute_arrays) (data : loc) (normalize : value)
    : M attribute_arrays :=
  a ← AttributeArrayN 2 (arrays_length s) (VStr "short") data normalize;
  mret (push s a).

Definition add2us (s : attribute_arrays) (data : loc) (normalize : value)
    : M attribute_arrays :=
  a ← AttributeArrayN 2 (arrays_length s) (VStr "ushort") data normalize;
  mret (push s a).

Definition add2f (s : attribute_arrays) (data : loc) (normalize : value)
    : M attribute_arrays :=
  a ← AttributeArrayN 2 (arrays_length s) (VStr "float") data normalize;
  mret (push s a).

Definition add3 (s : attribute_arrays) (type : value) (data : loc)
    (normalize : value) : M attribute_arrays :=
  a ← AttributeArrayN 3 (arrays_length s) type data normalize;
  mret (push s a).

Definition add3b (s : attribute_arrays) (data : loc) (normalize : value)
    : M attribute_arrays :=
  a ← AttributeArrayN 3 (arrays_length s) (VStr "byte") data normalize;
  mret (push s a).

Definition add3ub (s : attribute_arrays) (data : loc) (normalize : value)
    : M attribute_arrays :=
  a ← AttributeArrayN 3 (arrays_length s) (VStr "ubyte") data normalize;
  mret (push s a).

Definition add3s (s : attribute_arrays) (data : loc) (normalize : value)
    : M attribute_arrays :=
  a ← AttributeArrayN 3 (arrays_length s) (VStr "short") data normalize;
  mret (push s a).

Definition add3us (s : attribute_arrays) (data : loc) (normalize : value)
    : M attribute_arrays :=
  a ← AttributeArrayN 3 (arrays_length s) (VStr "ushort") data normalize;
  mret (push s a).

Definition add3f (s : attribute_arrays) (data : loc) (normalize : value)
    : M attribute_arrays :=
  a ← AttributeArrayN 3 (arrays_length s) (VStr "float") data normalize;
  mret (push s a).

Definition add4 (s : attribute_arrays) (type : value) (data : loc)
    (normalize : value) : M attribute_arrays :=
  a ← AttributeArrayN 4 (arrays_length s) type data normalize;
  mret (push s a).

Definition add4b (s : attribute_arrays) (data : loc) (normalize : value)
    : M attribute_arrays :=
  a ← AttributeArrayN 4 (arrays_length s) (VStr "byte") data normalize;
  mret (push s a).

Definition add4ub (s : attribute_arrays) (data : loc) (normalize : value)
    : M attribute_arrays :=
  a ← AttributeArrayN 4 (arrays_length s) (VStr "ubyte") data normalize;
  mret (push s a).

Definition add4s (s : attribute_arrays) (data : loc) (normalize : value)
    : M attribute_arrays :=
  a ← AttributeArrayN 4 (arrays_length s) (VStr "short") data normalize;
  mret (push s a).

Definition add4us (s : attribute_arrays) (data : loc) (normalize : value)
    : M attribute_arrays :=
  a ← AttributeArrayN 4 (arrays_length s) (VStr "ushort") data normalize;
  mret (push s a).

Definition add4f (s : attribute_arrays) (data : loc) (normalize : value)
    : M attribute_arrays :=
  a ← AttributeArrayN 4 (arrays_length s) (VStr "float") data normalize;
  mret (push s a).

Definition AttributeArrays_enable (s : attribute_arrays) : M unit :=
  for_each (seq 0 (length (arrays s)))
    (fun i => emit (EnableVertexAttribArray (Z.of_nat i))).

Definition AttributeArrays_disable (s : attribute_arrays) : M unit :=
  for_each (seq 0 (length (arrays s)))
    (fun i => emit (DisableVertexAttribArray (Z.of_nat i))).

(** `arrays[i].m(...)` *)
Definition with_array (s : attribute_arrays) (i : nat)
    (m : attribute_array -> M unit) : M unit :=
  match arrays s !! i with
  | Some a => m a
  | None => throw TypeError
  end.

Definition AttributeArrays_bindAndPointer (s : attribute_arrays)
    (stride offset : num) : M unit :=
  for_each (seq 0 (length (arrays s)))
    (fun i => with_array s i (fun a => AttributeArray_bindAndPointer a stride offset)).

Definition AttributeArrays_enableBindAndPointer (s : attribute_arrays)
    (stride offset : num) : M unit :=
  for_each (seq 0 (length (arrays s)))
    (fun i =>
       emit (EnableVertexAttribArray (Z.of_nat i));;
       with_array s i (fun a => AttributeArray_bindAndPointer a stride offset)).

(** The actual arguments of a call, for the functions that look at
    `arguments.length`; a parameter without an argument reads `undefined`. *)
Definition param (arguments : list num) (i : nat) : num :=
  default None (arguments !! i).

Definition AttributeArrays_drawTriangles (s : attribute_arrays)
    (arguments : list num) : M unit :=
  let offset := param arguments 0 in
  let count := param arguments 1 in
  let count := if (length arguments <? 2)%nat then all s else count in
  let offset :=
    if ((length arguments <? 2)%nat && (length arguments <? 1)%nat)%bool
    then Some 0%Z else offset in
  emit (DrawArrays TRIANGLES offset count).

Definition AttributeArrays_drawTriangleFan (s : attribute_arrays)
    (arguments : list num) : M unit :=
  let offset := param arguments 0 in
  let count := param arguments 1 in
  let count := if (length arguments <? 2)%nat then all s else count in
  let offset :=
    if ((length arguments <? 2)%nat && (length arguments <? 1)%nat)%bool
    then Some 0%Z else offset in
  emit (DrawArrays TRIANGLE_FAN offset count).

Definition AttributeArrays_drawTriangleStrip (s : attribute_arrays)
    (arguments : list num) : M unit :=
  let offset := param arguments 0 in
  let count := param arguments 1 in
  let count := if (length arguments <? 2)%nat then all s else count in
  let offset :=
    if ((length arguments <? 2)%nat && (length arguments <? 1)%nat)%bool
    then Some 0%Z else offset in
  emit (DrawArrays TRIANGLE_STRIP offset count).

(** *** Scripts of `add` calls *)

(** The `add` methods, as a script can call them: the number of components,
    the type (an argument of `add1` .. `add4`, fixed by the other methods),
    the data and the normalize flag. *)
Inductive add_components := One | Two | Three | Four.

Inductive add_kind :=
| KType (type : value)
| KByte | KUByte | KShort | KUShort | KFloat.

Record add_call := mkAdd {
  add_num : add_components;
  add_type : add_kind;
  add_data : loc;
  add_normalize : value
}.

Definition call_add (c : add_call) (s : attribute_arrays) : M attribute_arrays :=
  let d := add_data c in
  let n := add_normalize c in
  match add_num c, add_type c with
  | One, KType type => add1 s type d n
  | One, KByte => add1b s d n
  | One, KUByte => add1ub s d n
  | One, KShort => add1s s d n
  | One, KUShort => add1us s d n
  | One, KFloat => add1f s d n
  | Two, KType type => add2 s type d n
  | Two, KByte => add2b s d n
  | Two, KUByte => add2ub s d n
  | Two, KShort => add2s s d n
  | Two, KUShort => add2us s d n
  | Two, KFloat => add2f s d n
  | Three, KType type => add3 s type d n
  | Three, KByte => add3b s d n
  | Three, KUByte => add3ub s d n
  | Three, KShort => add3s s d n
  | Three, KUShort => add3us s d n
  | Three, KFloat => add3f s d n
  | Four, KType type => add4 s type d n
  | Four, KByte => add4b s d n
  | Four, KUByte => add4ub s d n
  | Four, KShort => add4s s d n
  | Four, KUShort => add4us s d n
  | Four, KFloat => add4f s d n
  end.

Definition components (c : add_call) : Z :=
  match add_num c with One => 1 | Two => 2 | Three => 3 | Four => 4 end.

Definition type_name (c : add_call) : value :=
  match add_type c with
  | KType type => type
  | KByte => VStr "byte"
  | KUByte => VStr "ubyte"
  | KShort => VStr "short"
  | KUShort => VStr "ushort"
  | KFloat => VStr "float"
  end.

(** A script of `add` calls on one set; a call that throws is caught and the
    script goes on. *)
Fixpoint run_adds (cs : list add_call) (s : attribute_arrays) (w : world)
    : attribute_arrays * world :=
  match cs with
  | [] => (s, w)
  | c :: cs' =>
      match call_add c s w with
      | (Ok s', w') => run_adds cs' s' w'
      | (Throw _, w') => run_adds cs' s w'
      end
  end.

(** ** context.ElementArray *)

Definition ElementArray_types : object type_info :=
  [ ("ubyte", mkType UNSIGNED_BYTE 1);
    ("ushort", mkType UNSIGNED_SHORT 2) ].

Definition ElementArray_error : string :=
  ("Invalid element type, must be either " ++ quoted "ubyte" ++ " or "
    ++ quoted "ushort" ++ ".")%string.

(** The returned buffer, with what its added methods close over: the
    `indices` array (by reference), the defaulted `type` and the `count`
    read at construction. *)
Record element_array := mkElementArray {
  ea_buffer : buffer;
  ea_indices : loc;
  ea_type : value;
  ea_all : Z
}.

Definition ElementArray (indices : loc) (type : value) : M element_array :=
  let type := if negb (truthy type) then VStr "ushort" else type in
  a ← get_array indices;
  let count := Z.of_nat (length a) in
  if negb (hasOwnProperty ElementArray_types type)
  then throw (ThrowValue (VStr ElementArray_error))
  else
    buffer ← new_Buffer StaticElementArrayBuffer type;
    Buffer_bindAndData buffer indices;;
    mret (mkElementArray buffer indices type count).

Definition ElementArray_drawTriangles (e : element_array) (offset count : num)
    : M unit :=
  let offset := or_default offset 0 in
  let count := or_default count (ea_all e) in
  t ← get_entry ElementArray_types (ea_type e);
  emit (DrawElements TRIANGLES count (glType t) (offset * size t)).

Definition ElementArray_drawTriangleFan (e : element_array) (offset count : num)
    : M unit :=
  let offset := or_default offset 0 in
  let count := or_default count (ea_all e) in
  t ← get_entry ElementArray_types (ea_type e);
  emit (DrawElements TRIANGLE_FAN count (glType t) (offset * size t)).

Definition ElementArray_drawTriangleStrip (e : element_array) (offset count : num)
    : M unit :=
  let offset := or_default offset 0 in
  let count := or_default count (ea_all e) in
  t ← get_entry ElementArray_types (ea_type e);
  emit (DrawElements TRIANGLE_STRIP count (glType t) (offset * size t)).

(** `shiftedIndices[i] += vertexOffset` *)
Definition shift_entry (shiftedIndices : loc) (vertexOffset : Z) (i : nat)
    : M unit :=
  a ← get_array shiftedIndices;
  set_array shiftedIndices (<[i := (default 0%Z (a !! i) + vertexOffset)%Z]> a).

Definition ElementArray_drawTrianglesBaseVertex (e : element_array)
    (vertexOffset offset count : num) : M unit :=
  shiftedIndices ← Array_slice (ea_indices e);
  let offset := or_default offset 0 in
  let count := or_default count (ea_all e) in
  let vertexOffset := or_default vertexOffset 0 in
  (if negb (vertexOffset =? 0)%Z
   then
     a ← get_array shiftedIndices;
     for_each (seq 0 (length a)) (shift_entry shiftedIndices vertexOffset);;
     Buffer_subData (ea_buffer e) 0 shiftedIndices
   else mret tt);;
  t ← get_entry ElementArray_types (ea_type e);
  emit (DrawElements TRIANGLES count (glType t) (offset * size t));;
  (if negb (vertexOffset =? 0)%Z
   then Buffer_subData (ea_buffer e) 0 (ea_indices e)
   else mret tt).

(** `new context.ElementArray(indices, type)` when the indices argument
    may be missing (`undefined` or `null`, [None]): reading `indices.length`
    at the head of the constructor then raises a TypeError, after the default
    of the type and before the check of the type name and any call. *)
Definition ElementArray_call (indices : option loc) (type : value)
    : M element_array :=
  match indices with
  | Some l => ElementArray l type
  | None => throw TypeError
  end.

(** ** Vocabulary of the statements *)

(** The type name [context.ElementArray] works with: `ushort` unless a
    truthy one is given. *)
Definition element_type (type : value) : value :=
  if negb (truthy type) then VStr "ushort" else type.

(** A world with one JavaScript array, one GL buffer and one earlier call,
    used by the concrete runs. *)
Definition sample_world : world :=
  mkWorld [[0; 1; 2; 2; 3; 0]%Z] [[9; 9]%Z] [EnableVertexAttribArray 5].

(** The byte size of a type name, as the documentation of the wrappers gives
    it: 1 for 'byte' and 'ubyte', 2 for 'short' and 'ushort', 4 for
    'float'. *)
Definition byte_size (type : value) : Z :=
  match type with
  | VStr s =>
      if String.eqb s "byte" || String.eqb s "ubyte" then 1
      else if String.eqb s "short" || String.eqb s "ushort" then 2
      else if String.eqb s "float" then 4
      else 0
  | _ => 0
  end.

(** The world `drawTrianglesBaseVertex` leaves, on an object whose type is
    in the table and whose `indices` array is allocated: the scratch copy
    stays on the heap; with a non-zero offset the buffer is written twice. *)
Definition after_drawTrianglesBaseVertex (e : element_array) (t : type_info)
    (indices : list Z) (vertexOffset : Z) (offset count : num) (w : world)
    : world :=
  let h := b_handle (ea_buffer e) in
  let draw := DrawElements TRIANGLES (or_default count (ea_all e)) (glType t)
                (or_default offset 0 * size t) in
  if (vertexOffset =? 0)%Z then
    mkWorld (w_heap w ++ [indices]) (w_buffers w) (w_log w ++ [draw])
  else
    let shifted := map (fun x => x + vertexOffset)%Z indices in
    let typed := map (to_typed (b_type (ea_buffer e))) in
    let buffers1 :=
      <[h := write_at 0 (typed shifted) (default [] (w_buffers w !! h))]>
        (w_buffers w) in
    let buffers2 :=
      <[h := write_at 0 (typed indices) (default [] (buffers1 !! h))]>
        buffers1 in
    mkWorld (w_heap w ++ [shifted]) buffers2
      (w_log w ++ [SubData h 0 shifted; draw; SubData h 0 indices]).

(** Indices that an element buffer of the given type stores as they are. *)
Definition representable (type : value) (z : Z) : Prop :=
  (0 <= z < 256 ^ byte_size type)%Z.

(** The invariant of a set: the array at position k has index k. *)
Definition slots_in_order (s : attribute_arrays) : Prop :=
  forall k a, arrays s !! k = Some a -> aa_index a = Z.of_nat k.

Definition add_succeeds (c : add_call) : bool :=
  hasOwnProperty AttributeArray_types (type_name c).

(** The world after some more calls on the context: only the log grows. *)
Definition log_more (w : world) (calls : list event) : world :=
  mkWorld (w_heap w) (w_buffers w) (w_log w ++ calls).

(** The GL type constant of a type name, as the documentation of the
    wrappers pairs them: `gl.BYTE` for 'byte', `gl.UNSIGNED_BYTE` for
    'ubyte', `gl.SHORT` for 'short', `gl.UNSIGNED_SHORT` for 'ushort' and
    `gl.FLOAT` for 'float'. *)
Definition gl_type_of (type : value) : gl_enum :=
  match type with
  | VStr s =>
      if String.eqb s "byte" then BYTE
      else if String.eqb s "ubyte" then UNSIGNED_BYTE
      else if String.eqb s "short" then SHORT
      else if String.eqb s "ushort" then UNSIGNED_SHORT
      else FLOAT
  | _ => FLOAT
  end.

(** The `vertexAttribPointer` call of an attribute array for the given
    stride and offset. *)
Definition pointer_call (a : attribute_array) (stride offset : num) : event :=
  VertexAttribPointer (aa_index a) (aa_num a) (gl_type_of (aa_type a))
    (truthy (aa_normalize a))
    (or_default stride 0 * byte_size (aa_type a))
    (or_default offset 0 * byte_size (aa_type a)).

(** The `bindBuffer` call of an attribute array. *)
Definition bind_call (a : attribute_array) : event :=
  BindBuffer ARRAY_BUFFER (b_handle (aa_buffer a)).

(** An attribute array whose type name is in the table of
    [context.AttributeArray], as every constructed one is. *)
Definition typed_array (a : attribute_array) : Prop :=
  hasOwnProperty AttributeArray_types (aa_type a) = true.

(** The three usage names of [context.AttributeArray]. *)
Definition usage_name (buffer_type : value) : Prop :=
  buffer_type = VStr "static" \/ buffer_type = VStr "stream" \/
  buffer_type = VStr "dynamic".

(** The five type names of [context.AttributeArray]. *)
Definition attribute_type_name (type : value) : Prop :=
  type = VStr "byte" \/ type = VStr "ubyte" \/ type = VStr "short" \/
  type = VStr "ushort" \/ type = VStr "float".

(** The calls a successful `add` issues: the creation of the buffer and the
    upload of the data. *)
Definition is_upload_call (ev : event) : Prop :=
  match ev with
  | NewBuffer StaticArrayBuffer _ _ | BindAndData _ _ => True
  | _ => False
  end.

(** * Properties *)

(** ** Property keys *)

(** The key of a number starts with a digit or a sign, so it is not a name
    of either type table. *)
Lemma number_key_not_attribute_type (n : Z) :
  get_own AttributeArray_types (to_key (VNum n)) = None.
Proof.
  unfold to_key, NilZero.string_of_int, NilZero.string_of_uint.
  destruct (Z.to_int n) as [d|d]; destruct d; reflexivity.
Qed.

Lemma number_key_not_element_type (n : Z) :
  get_own ElementArray_types (to_key (VNum n)) = None.
Proof.
  unfold to_key, NilZero.string_of_int, NilZero.string_of_uint.
  destruct (Z.to_int n) as [d|d]; destruct d; reflexivity.
Qed.

Ltac case_key s k :=
  let E := fresh "E" in
  destruct (String.eqb_spec k s) as [E|E]; [subst s|].

Lemma AttributeArray_types_own (v : value) :
  hasOwnProperty AttributeArray_types v = true <->
  v = VStr "byte" \/ v = VStr "ubyte" \/ v = VStr "short" \/
  v = VStr "ushort" \/ v = VStr "float".
Proof.
  unfold hasOwnProperty. split.
  - destruct v as [| |[]|n|s]; try discriminate.
    + rewrite number_key_not_attribute_type. discriminate.
    + cbn [to_key AttributeArray_types get_own].
      case_key s "byte"; [tauto|].
      case_key s "ubyte"; [tauto|].
      case_key s "short"; [tauto|].
      case_key s "ushort"; [tauto|].
      case_key s "float"; [tauto|]. discriminate.
  - intros [->|[->|[->|[->| ->]]]]; reflexivity.
Qed.

Lemma ElementArray_types_own (v : value) :
  hasOwnProperty ElementArray_types v = true <->
  v = VStr "ubyte" \/ v = VStr "ushort".
Proof.
  unfold hasOwnProperty. split.
  - destruct v as [| |[]|n|s]; try discriminate.
    + rewrite number_key_not_element_type. discriminate.
    + cbn [to_key ElementArray_types get_own].
      case_key s "ubyte"; [tauto|].
      case_key s "ushort"; [tauto|]. discriminate.
  - intros [->| ->]; reflexivity.
Qed.

Lemma hasOwnProperty_get {A} (o : object A) (v : value) :
  hasOwnProperty o v = true -> exists x, get_own o (to_key v) = Some x.
Proof.
  unfold hasOwnProperty. destruct (get_own o (to_key v)) as [x|]; [eauto|discriminate].
Qed.

(** ** Outcomes of the constructors *)

(** The three ways [context.AttributeArray] ends, by its two guards. *)
Lemma AttributeArray_run (index : Z) (type : value) (num : Z)
    (buffer_type : value) (data : loc) (normalize : value) (w : world) :
  AttributeArray index type num buffer_type data normalize w =
  if hasOwnProperty AttributeArray_types type then
    match get_own buffer_types (to_key buffer_type) with
    | Some cls =>
        let h := length (w_buffers w) in
        let a := heap_get (w_heap w) data in
        (Ok (mkAttributeArray (mkBuffer h cls type) index type num normalize),
         mkWorld (w_heap w)
           (<[h := map (to_typed type) a]> (w_buffers w ++ [[]]))
           (w_log w ++ [NewBuffer cls type h; BindAndData h a]))
    | None => (Throw TypeError, w)
    end
  else (Throw (ThrowValue (VStr AttributeArray_error)), w).
Proof.
  unfold AttributeArray.
  destruct (hasOwnProperty AttributeArray_types type); [|reflexivity].
  cbn [negb]. unfold mbind, M_bind, bind, get_entry.
  destruct (get_own buffer_types (to_key buffer_type)) as [cls|]; [|reflexivity].
  cbn. rewrite <- app_assoc. reflexivity.
Qed.

Lemma ElementArray_run (indices : loc) (type : value) (w : world) :
  ElementArray indices type w =
  if hasOwnProperty ElementArray_types (element_type type) then
    let h := length (w_buffers w) in
    let a := heap_get (w_heap w) indices in
    (Ok (mkElementArray (mkBuffer h StaticElementArrayBuffer (element_type type))
           indices (element_type type) (Z.of_nat (length a))),
     mkWorld (w_heap w)
       (<[h := map (to_typed (element_type type)) a]> (w_buffers w ++ [[]]))
       (w_log w ++ [NewBuffer StaticElementArrayBuffer (element_type type) h;
                    BindAndData h a]))
  else (Throw (ThrowValue (VStr ElementArray_error)), w).
Proof.
  unfold ElementArray. fold (element_type type).
  unfold mbind, M_bind, bind, get_array.
  destruct (hasOwnProperty ElementArray_types (element_type type)); [|reflexivity].
  cbn. rewrite <- app_assoc. reflexivity.
Qed.

(** ** Concrete runs *)

Example ElementArray_default_run :
  ElementArray 0 VUndefined sample_world =
  (Ok (mkElementArray (mkBuffer 1 StaticElementArrayBuffer (VStr "ushort")) 0
         (VStr "ushort") 6),
   mkWorld [[0; 1; 2; 2; 3; 0]%Z] [[9; 9]%Z; [0; 1; 2; 2; 3; 0]%Z]
     [EnableVertexAttribArray 5;
      NewBuffer StaticElementArrayBuffer (VStr "ushort") 1;
      BindAndData 1 [0; 1; 2; 2; 3; 0]%Z]).
Proof. reflexivity. Qed.

Example drawTrianglesBaseVertex_ubyte_run :
  (e ← ElementArray 0 (VStr "ubyte");
   ElementArray_drawTrianglesBaseVertex e (Some 254%Z) (Some 3%Z) (Some 0%Z))
    (mkWorld [[0; 1; 2; 2; 3; 0]%Z] [] []) =
  (Ok tt,
   mkWorld [[0; 1; 2; 2; 3; 0]%Z; [254; 255; 256; 256; 257; 254]%Z]
     [[0; 1; 2; 2; 3; 0]%Z]
     [NewBuffer StaticElementArrayBuffer (VStr "ubyte") 0;
      BindAndData 0 [0; 1; 2; 2; 3; 0]%Z;
      SubData 0 0 [254; 255; 256; 256; 257; 254]%Z;
      DrawElements TRIANGLES 6 UNSIGNED_BYTE 3;
      SubData 0 0 [0; 1; 2; 2; 3; 0]%Z]).
Proof. reflexivity. Qed.

Example AttributeArray_unknown_buffer_type_run :
  AttributeArray 0 (VStr "float") 3 (VStr "steam") 0 VUndefined sample_world
  = (Throw TypeError, sample_world).
Proof. reflexivity. Qed.

Example AttributeArrays_draw_defaults_run :
  (s ← add3f (AttributeArrays None) 0 VUndefined;
   AttributeArrays_drawTriangles s [Some 2%Z];;
   AttributeArrays_drawTriangleFan s [];;
   AttributeArrays_drawTriangleStrip s [None; Some 0%Z])
    (mkWorld [[1; 2; 3]%Z] [] []) =
  (Ok tt,
   mkWorld [[1; 2; 3]%Z] [[1; 2; 3]%Z]
     [NewBuffer StaticArrayBuffer (VStr "float") 0;
      BindAndData 0 [1; 2; 3]%Z;
      DrawArrays TRIANGLES (Some 2%Z) None;
      DrawArrays TRIANGLE_FAN (Some 0%Z) None;
      DrawArrays TRIANGLE_STRIP None (Some 0%Z)]).
Proof. reflexivity. Qed.

(** ** Errors of the constructors *)

(** C4 (as amended).  [context.AttributeArray] throws its error string if and
    only if the type argument is not one of 'byte', 'ubyte', 'short',
    'ushort', 'float', whatever the other arguments are.
    [context.ElementArray] throws its error string if and only if the type
    argument is truthy and is neither 'ubyte' nor 'ushort': a falsy type
    (absent, null, false, 0 or the empty string) is replaced by 'ushort'
    before the check. *)
Theorem constructors_throw_iff_invalid_type :
  (forall index type num buffer_type data normalize w,
      fst (AttributeArray index type num buffer_type data normalize w)
        = Throw (ThrowValue (VStr AttributeArray_error))
      <-> ~ (type = VStr "byte" \/ type = VStr "ubyte" \/ type = VStr "short" \/
             type = VStr "ushort" \/ type = VStr "float")) /\
  (forall indices type w,
      fst (ElementArray indices type w)
        = Throw (ThrowValue (VStr ElementArray_error))
      <-> truthy type = true /\ type <> VStr "ubyte" /\ type <> VStr "ushort").
Proof.
  split.
  - intros index type num buffer_type data normalize w.
    rewrite AttributeArray_run, <- AttributeArray_types_own.
    destruct (hasOwnProperty AttributeArray_types type).
    + split; [|intros H; exfalso; auto].
      destruct (get_own buffer_types (to_key buffer_type)); discriminate.
    + split; [discriminate|reflexivity].
  - intros indices type w.
    rewrite ElementArray_run.
    destruct (hasOwnProperty ElementArray_types (element_type type)) eqn:Hown.
    + split; [discriminate|]. intros (Ht & Hb & Hs). exfalso.
      apply ElementArray_types_own in Hown. unfold element_type in Hown.
      rewrite Ht in Hown. cbn in Hown. tauto.
    + split; [|reflexivity]. intros _.
      unfold element_type in Hown.
      destruct (truthy type) eqn:Ht; [|discriminate Hown].
      cbn in Hown. split; [reflexivity|].
      split; intros ->; discriminate Hown.
Qed.

Lemma constructors_throw_iff_invalid_type_witness :
  fst (AttributeArray 0 (VStr "double") 3 (VStr "static") 0 VUndefined sample_world)
    = Throw (ThrowValue (VStr AttributeArray_error)) /\
  fst (ElementArray 0 (VStr "uint") sample_world)
    = Throw (ThrowValue (VStr ElementArray_error)).
Proof.
  split.
  - apply (proj1 constructors_throw_iff_invalid_type).
    intros [H|[H|[H|[H|H]]]]; discriminate H.
  - apply (proj2 constructors_throw_iff_invalid_type).
    split; [reflexivity|]. split; discriminate.
Defined.

(** C4, without the amendment: the empty string is a supplied type that is
    neither 'ubyte' nor 'ushort', and [context.ElementArray] does not throw
    on it, so "throws if and only if the type is neither" fails there. *)
Lemma ElementArray_empty_type_does_not_throw :
  ~ (fst (ElementArray 0 (VStr "") sample_world)
       = Throw (ThrowValue (VStr ElementArray_error))
     <-> VStr "" <> VStr "ubyte" /\ VStr "" <> VStr "ushort").
Proof.
  intros [_ H].
  assert (Hthrow : fst (ElementArray 0 (VStr "") sample_world)
                   = Throw (ThrowValue (VStr ElementArray_error))).
  { apply H. split; discriminate. }
  vm_compute in Hthrow. discriminate Hthrow.
Qed.

(** C10.  When a constructor throws its error string for an invalid type
    name, nothing has been done yet: the world (JavaScript heap, GL buffers,
    log of context calls) is the one the call started in. *)
Theorem constructor_failure_is_atomic :
  (forall index type num buffer_type data normalize w,
      fst (AttributeArray index type num buffer_type data normalize w)
        = Throw (ThrowValue (VStr AttributeArray_error)) ->
      snd (AttributeArray index type num buffer_type data normalize w) = w) /\
  (forall indices type w,
      fst (ElementArray indices type w)
        = Throw (ThrowValue (VStr ElementArray_error)) ->
      snd (ElementArray indices type w) = w).
Proof.
  split.
  - intros index type num buffer_type data normalize w.
    rewrite AttributeArray_run.
    destruct (hasOwnProperty AttributeArray_types type); [|reflexivity].
    destruct (get_own buffer_types (to_key buffer_type)); [discriminate|reflexivity].
  - intros indices type w. rewrite ElementArray_run.
    destruct (hasOwnProperty ElementArray_types (element_type type));
      [discriminate|reflexivity].
Qed.

Lemma constructor_failure_is_atomic_witness :
  (fst (AttributeArray 0 (VStr "double") 3 (VStr "static") 0 VUndefined sample_world)
     = Throw (ThrowValue (VStr AttributeArray_error)) /\
   snd (AttributeArray 0 (VStr "double") 3 (VStr "static") 0 VUndefined sample_world)
     = sample_world) /\
  (fst (ElementArray 0 (VStr "uint") sample_world)
     = Throw (ThrowValue (VStr ElementArray_error)) /\
   snd (ElementArray 0 (VStr "uint") sample_world) = sample_world).
Proof.
  split; (split; [reflexivity|]).
  - apply (proj1 constructor_failure_is_atomic). reflexivity.
  - apply (proj2 constructor_failure_is_atomic). reflexivity.
Defined.

(** ** Attribute arrays *)

(** What a successful construction fixes in the returned object. *)
Lemma AttributeArray_constructed index type num buffer_type data normalize w0 a w1 :
  AttributeArray index type num buffer_type data normalize w0 = (Ok a, w1) ->
  aa_index a = index /\ aa_type a = type /\ aa_num a = num /\
  aa_normalize a = normalize /\
  hasOwnProperty AttributeArray_types type = true /\
  b_class (aa_buffer a) <> StaticElementArrayBuffer.
Proof.
  rewrite AttributeArray_run.
  destruct (hasOwnProperty AttributeArray_types type); [|discriminate].
  destruct (get_own buffer_types (to_key buffer_type)) as [cls|] eqn:Hcls;
    [|discriminate].
  intros [= <- _]. cbn. repeat split; try reflexivity.
  intros ->. unfold buffer_types in Hcls. cbn in Hcls.
  repeat match type of Hcls with
         | (if ?b then _ else _) = _ => destruct b; [discriminate Hcls|]
         end.
  discriminate Hcls.
Qed.

Lemma AttributeArray_types_size (type : value) (t : type_info) :
  get_own AttributeArray_types (to_key type) = Some t ->
  hasOwnProperty AttributeArray_types type = true ->
  size t = byte_size type.
Proof.
  intros Ht Hown. apply AttributeArray_types_own in Hown.
  destruct Hown as [->|[->|[->|[->| ->]]]]; cbn in Ht;
    injection Ht as <-; reflexivity.
Qed.

(** `x || 0` is the number given, and 0 when none is. *)
Lemma or_default_zero (x : num) :
  or_default x 0 = match x with Some n => n | None => 0%Z end.
Proof.
  destruct x as [n|]; [|reflexivity]. unfold or_default.
  destruct (Z.eqb_spec n 0) as [->|_]; reflexivity.
Qed.

Lemma AttributeArray_types_gl (type : value) (t : type_info) :
  get_own AttributeArray_types (to_key type) = Some t ->
  hasOwnProperty AttributeArray_types type = true ->
  glType t = gl_type_of type.
Proof.
  intros Ht Hown. apply AttributeArray_types_own in Hown.
  destruct Hown as [->|[->|[->|[->| ->]]]]; cbn in Ht;
    injection Ht as <-; reflexivity.
Qed.

(** C5.  On an attribute array constructed with type X, `pointer(stride,
    offset)` issues one `vertexAttribPointer` call whose stride is the
    stride argument multiplied by the byte size of X and whose offset is the
    offset argument multiplied by the byte size of X; an omitted stride or
    offset counts as 0.  The byte size is 1 for 'byte' and 'ubyte', 2 for
    'short' and 'ushort', 4 for 'float'. *)
Theorem pointer_scales_by_type_size
    index type num buffer_type data normalize w0 a w1 :
  AttributeArray index type num buffer_type data normalize w0 = (Ok a, w1) ->
  (forall stride offset w,
      AttributeArray_pointer a stride offset w =
      (Ok tt,
       mkWorld (w_heap w) (w_buffers w)
         (w_log w ++
          [VertexAttribPointer index num (gl_type_of type) (truthy normalize)
             (match stride with
              | Some s => s * byte_size type
              | None => 0
              end)
             (match offset with
              | Some o => o * byte_size type
              | None => 0
              end)]))) /\
  (((type = VStr "byte" \/ type = VStr "ubyte") /\ byte_size type = 1%Z) \/
   ((type = VStr "short" \/ type = VStr "ushort") /\ byte_size type = 2%Z) \/
   (type = VStr "float" /\ byte_size type = 4%Z)).
Proof.
  intros Hnew.
  destruct (AttributeArray_constructed _ _ _ _ _ _ _ _ _ Hnew)
    as (Hi & Ht & Hn & Hz & Hown & _).
  destruct (hasOwnProperty_get _ _ Hown) as [t Hget].
  pose proof (AttributeArray_types_size _ _ Hget Hown) as Hsize.
  pose proof (AttributeArray_types_gl _ _ Hget Hown) as Hgl.
  split.
  - intros stride offset w.
    unfold AttributeArray_pointer, mbind, M_bind, bind, get_entry.
    rewrite Ht, Hget. cbn. rewrite Hi, Hn, Hz, Hsize, Hgl, !or_default_zero.
    destruct stride, offset; reflexivity.
  - apply AttributeArray_types_own in Hown.
    destruct Hown as [->|[->|[->|[->| ->]]]]; cbn; tauto.
Qed.

Lemma pointer_scales_by_type_size_witness :
  AttributeArray_pointer
    (mkAttributeArray (mkBuffer 1 StreamArrayBuffer (VStr "short")) 7
       (VStr "short") 3 (VBool true)) (Some 5%Z) (Some 3%Z) sample_world =
  (Ok tt,
   mkWorld (w_heap sample_world) (w_buffers sample_world)
     (w_log sample_world ++ [VertexAttribPointer 7 3 SHORT true 10 6])) /\
  AttributeArray_pointer
    (mkAttributeArray (mkBuffer 1 StreamArrayBuffer (VStr "short")) 7
       (VStr "short") 3 (VBool true)) None (Some 3%Z) sample_world =
  (Ok tt,
   mkWorld (w_heap sample_world) (w_buffers sample_world)
     (w_log sample_world ++ [VertexAttribPointer 7 3 SHORT true 0 6])).
Proof.
  destruct (pointer_scales_by_type_size 7 (VStr "short") 3 (VStr "stream") 0
              (VBool true) sample_world
              (mkAttributeArray (mkBuffer 1 StreamArrayBuffer (VStr "short")) 7
                 (VStr "short") 3 (VBool true))
              (snd (AttributeArray 7 (VStr "short") 3 (VStr "stream") 0
                      (VBool true) sample_world))
              eq_refl) as [Hpointer _].
  split.
  - exact (Hpointer (Some 5%Z) (Some 3%Z) sample_world).
  - exact (Hpointer None (Some 3%Z) sample_world).
Defined.

(** C6.  On a constructed attribute array, `bindAndPointer(stride, offset)`
    does what `bind()` followed by `pointer(stride, offset)` does: the two
    context calls `bindBuffer(ARRAY_BUFFER, buffer)` and `vertexAttribPointer`
    with stride and offset scaled by the byte size of the type. *)
Theorem bindAndPointer_is_bind_then_pointer
    index type num buffer_type data normalize w0 a w1 :
  AttributeArray index type num buffer_type data normalize w0 = (Ok a, w1) ->
  forall stride offset w,
    AttributeArray_bindAndPointer a stride offset w =
      (Buffer_bind (aa_buffer a);; AttributeArray_pointer a stride offset) w /\
    exists gl,
      AttributeArray_bindAndPointer a stride offset w =
      (Ok tt,
       mkWorld (w_heap w) (w_buffers w)
         (w_log w ++ [BindBuffer ARRAY_BUFFER (b_handle (aa_buffer a));
                      VertexAttribPointer index num gl (truthy normalize)
                        (or_default stride 0 * byte_size type)
                        (or_default offset 0 * byte_size type)])).
Proof.
  intros Hnew stride offset w.
  destruct (AttributeArray_constructed _ _ _ _ _ _ _ _ _ Hnew)
    as (Hi & Ht & Hn & Hz & Hown & Hcls).
  destruct (hasOwnProperty_get _ _ Hown) as [t Hget].
  pose proof (AttributeArray_types_size _ _ Hget Hown) as Hsize.
  split.
  - unfold AttributeArray_bindAndPointer, Buffer_bind.
    destruct (b_class (aa_buffer a)); try reflexivity. congruence.
  - exists (glType t).
    unfold AttributeArray_bindAndPointer, mbind, M_bind, bind, get_entry, emit.
    rewrite Ht, Hget. cbn. rewrite Hi, Hn, Hz, Hsize.
    rewrite <- app_assoc. reflexivity.
Qed.

Lemma bindAndPointer_is_bind_then_pointer_witness :
  AttributeArray_bindAndPointer
    (mkAttributeArray (mkBuffer 1 StaticArrayBuffer (VStr "float")) 2
       (VStr "float") 3 VUndefined) (Some 5%Z) None sample_world =
  (Buffer_bind (mkBuffer 1 StaticArrayBuffer (VStr "float"));;
   AttributeArray_pointer
     (mkAttributeArray (mkBuffer 1 StaticArrayBuffer (VStr "float")) 2
        (VStr "float") 3 VUndefined) (Some 5%Z) None) sample_world.
Proof.
  apply (bindAndPointer_is_bind_then_pointer 2 (VStr "float") 3 (VStr "static")
           0 VUndefined sample_world _
           (snd (AttributeArray 2 (VStr "float") 3 (VStr "static") 0 VUndefined
                   sample_world))
           eq_refl (Some 5%Z) None sample_world).
Defined.

(** ** Element arrays *)

Lemma ElementArray_constructed indices type w0 e w1 :
  ElementArray indices type w0 = (Ok e, w1) ->
  ea_indices e = indices /\ ea_type e = element_type type /\
  ea_all e = Z.of_nat (length (heap_get (w_heap w0) indices)) /\
  ea_buffer e = mkBuffer (length (w_buffers w0)) StaticElementArrayBuffer
                  (element_type type) /\
  hasOwnProperty ElementArray_types (element_type type) = true /\
  w1 = mkWorld (w_heap w0)
         (<[length (w_buffers w0) :=
              map (to_typed (element_type type)) (heap_get (w_heap w0) indices)]>
            (w_buffers w0 ++ [[]]))
         (w_log w0 ++ [NewBuffer StaticElementArrayBuffer (element_type type)
                         (length (w_buffers w0));
                       BindAndData (length (w_buffers w0))
                         (heap_get (w_heap w0) indices)]).
Proof.
  rewrite ElementArray_run.
  destruct (hasOwnProperty ElementArray_types (element_type type)); [|discriminate].
  cbn. intros [= <- <-]. cbn. repeat split; reflexivity.
Qed.

(** The simple draw helpers on an object whose type is in the table. *)
Lemma ElementArray_draw_run (e : element_array) (t : type_info)
    (offset count : num) (w : world) :
  get_own ElementArray_types (to_key (ea_type e)) = Some t ->
  let draw mode :=
    (Ok tt,
     mkWorld (w_heap w) (w_buffers w)
       (w_log w ++ [DrawElements mode (or_default count (ea_all e)) (glType t)
                      (or_default offset 0 * size t)])) in
  ElementArray_drawTriangles e offset count w = draw TRIANGLES /\
  ElementArray_drawTriangleFan e offset count w = draw TRIANGLE_FAN /\
  ElementArray_drawTriangleStrip e offset count w = draw TRIANGLE_STRIP.
Proof.
  intros Ht draw.
  unfold ElementArray_drawTriangles, ElementArray_drawTriangleFan,
    ElementArray_drawTriangleStrip, mbind, M_bind, bind, get_entry.
  rewrite Ht. repeat split; reflexivity.
Qed.

(** The loop of `drawTrianglesBaseVertex`: started at position [length pre]
    of an array [pre ++ post], it adds the offset to every entry of
    [post] and leaves the rest of the world alone. *)
Lemma shift_loop_run (l : loc) (vertexOffset : Z) (post pre : list Z) (w : world) :
  w_heap w !! l = Some (pre ++ post) ->
  for_each (seq (length pre) (length post)) (shift_entry l vertexOffset) w =
  (Ok tt,
   mkWorld (<[l := pre ++ map (fun x => x + vertexOffset)%Z post]> (w_heap w))
     (w_buffers w) (w_log w)).
Proof.
  revert pre w. induction post as [|x post IH]; intros pre w Hl.
  - cbn. rewrite list_insert_id by exact Hl. destruct w; reflexivity.
  - cbn [length seq for_each].
    unfold mbind, M_bind, bind. unfold shift_entry at 1.
    unfold mbind, M_bind, bind, get_array, set_array, heap_get.
    rewrite Hl. cbn [default from_option id].
    rewrite list_lookup_middle by reflexivity. cbn [default from_option id].
    replace (<[length pre := (x + vertexOffset)%Z]> (pre ++ x :: post))
      with ((pre ++ [(x + vertexOffset)%Z]) ++ post).
    2:{ rewrite <- (Nat.add_0_r (length pre)), insert_app_r. cbn.
        rewrite <- app_assoc. reflexivity. }
    specialize (IH (pre ++ [(x + vertexOffset)%Z])).
    rewrite length_app in IH. cbn [length] in IH.
    rewrite Nat.add_1_r in IH.
    rewrite IH.
    + cbn [w_heap w_buffers w_log]. rewrite list_insert_insert_eq.
      rewrite <- app_assoc. reflexivity.
    + cbn [w_heap]. apply list_lookup_insert_eq.
      eapply lookup_lt_Some, Hl.
Qed.

Lemma drawTrianglesBaseVertex_run (e : element_array) (t : type_info)
    (indices : list Z) (vertexOffset offset count : num) (w : world) :
  get_own ElementArray_types (to_key (ea_type e)) = Some t ->
  w_heap w !! ea_indices e = Some indices ->
  ElementArray_drawTrianglesBaseVertex e vertexOffset offset count w =
  (Ok tt,
   after_drawTrianglesBaseVertex e t indices (or_default vertexOffset 0)
     offset count w).
Proof.
  intros Ht Hl.
  assert (Hlt : ea_indices e < length (w_heap w)) by (eapply lookup_lt_Some, Hl).
  unfold ElementArray_drawTrianglesBaseVertex, after_drawTrianglesBaseVertex.
  unfold mbind at 1. unfold M_bind at 1. unfold bind at 1.
  unfold Array_slice at 1. unfold heap_get at 1. rewrite Hl. cbn [default from_option id].
  destruct (or_default vertexOffset 0 =? 0)%Z.
  - cbn [negb]. unfold mbind, M_bind, bind, mret, M_ret, ret, get_entry, emit.
    rewrite Ht. reflexivity.
  - cbn [negb].
    set (w1 := mkWorld (w_heap w ++ [indices]) (w_buffers w) (w_log w)).
    assert (Hl1 : w_heap w1 !! length (w_heap w) = Some ([] ++ indices)).
    { cbn. rewrite lookup_app_r by lia. rewrite Nat.sub_diag. reflexivity. }
    pose proof (shift_loop_run _ (or_default vertexOffset 0) _ _ _ Hl1) as Hloop.
    cbn [length app] in Hloop.
    unfold mbind, M_bind, bind.
    unfold get_array at 1. unfold heap_get at 1.
    replace (w_heap w1 !! length (w_heap w)) with (Some indices) by (symmetry; exact Hl1).
    cbn [default from_option id]. rewrite Hloop. clear Hloop.
    unfold w1. cbn [w_heap w_buffers w_log].
    replace (<[length (w_heap w) := map (fun x => (x + or_default vertexOffset 0)%Z) indices]>
               (w_heap w ++ [indices]))
      with (w_heap w ++ [map (fun x => (x + or_default vertexOffset 0)%Z) indices]).
    2:{ rewrite <- (Nat.add_0_r (length (w_heap w))).
        rewrite insert_app_r. reflexivity. }
    unfold Buffer_subData at 1. unfold heap_get at 1. cbn [w_heap w_buffers w_log].
    rewrite lookup_app_r by lia. rewrite Nat.sub_diag. cbn [lookup list_lookup default from_option id].
    unfold get_entry. rewrite Ht.
    unfold mret, M_ret, ret, emit. cbn [w_heap w_buffers w_log].
    unfold Buffer_subData, heap_get. cbn [w_heap w_buffers w_log].
    rewrite lookup_app_l by exact Hlt. rewrite Hl.
    rewrite ?lookup_app_r by lia. rewrite ?Nat.sub_diag.
    cbn [lookup list_lookup default from_option id].
    rewrite <- !app_assoc. reflexivity.
Qed.

Lemma ElementArray_constructed_type indices type w0 e w1 :
  ElementArray indices type w0 = (Ok e, w1) ->
  exists t, get_own ElementArray_types (to_key (ea_type e)) = Some t /\
            get_own ElementArray_types (to_key (element_type type)) = Some t.
Proof.
  intros Hnew.
  destruct (ElementArray_constructed _ _ _ _ _ Hnew) as (_ & Ht & _ & _ & Hown & _).
  destruct (hasOwnProperty_get _ _ Hown) as [t Hget].
  exists t. rewrite Ht. auto.
Qed.

(** C1.  With a non-zero vertexOffset, `drawTrianglesBaseVertex` issues, in
    this order: `subData(0, shifted)` where `shifted` is the index list with
    vertexOffset added to every entry, the `drawElements` call, and
    `subData(0, indices)` with the index list itself. *)
Theorem base_vertex_draw_uploads_shifted_then_restores
    (l : loc) (type : value) (w0 w1 : world) (e : element_array)
    (w : world) (indices : list Z) (vertexOffset : Z) (offset count : num) :
  ElementArray l type w0 = (Ok e, w1) ->
  w_heap w !! l = Some indices ->
  vertexOffset <> 0%Z ->
  exists t w',
    get_own ElementArray_types (to_key (element_type type)) = Some t /\
    ElementArray_drawTrianglesBaseVertex e (Some vertexOffset) offset count w
      = (Ok tt, w') /\
    w_log w' =
      w_log w ++
      [SubData (b_handle (ea_buffer e)) 0
         (map (fun x => x + vertexOffset)%Z indices);
       DrawElements TRIANGLES (or_default count (ea_all e)) (glType t)
         (or_default offset 0 * size t);
       SubData (b_handle (ea_buffer e)) 0 indices].
Proof.
  intros Hnew Hl Hvo.
  destruct (ElementArray_constructed_type _ _ _ _ _ Hnew) as (t & Ht & Ht').
  destruct (ElementArray_constructed _ _ _ _ _ Hnew) as (Hi & _).
  rewrite <- Hi in Hl.
  exists t. eexists. split; [exact Ht'|]. split.
  - apply drawTrianglesBaseVertex_run; eassumption.
  - assert (Hd : or_default (Some vertexOffset) 0 = vertexOffset).
    { unfold or_default. destruct (Z.eqb_spec vertexOffset 0); congruence. }
    rewrite Hd. unfold after_drawTrianglesBaseVertex.
    destruct (Z.eqb_spec vertexOffset 0) as [?|_]; [contradiction|].
    reflexivity.
Qed.

Lemma base_vertex_draw_uploads_shifted_then_restores_witness :
  exists t w',
    get_own ElementArray_types (to_key (element_type VUndefined)) = Some t /\
    ElementArray_drawTrianglesBaseVertex
      (mkElementArray (mkBuffer 1 StaticElementArrayBuffer (VStr "ushort")) 0
         (VStr "ushort") 6)
      (Some 4%Z) None None
      (snd (ElementArray 0 VUndefined sample_world)) = (Ok tt, w') /\
    w_log w' =
      w_log (snd (ElementArray 0 VUndefined sample_world)) ++
      [SubData 1 0 (map (fun x => x + 4)%Z [0; 1; 2; 2; 3; 0]%Z);
       DrawElements TRIANGLES 6 (glType t) (0 * size t);
       SubData 1 0 [0; 1; 2; 2; 3; 0]%Z].
Proof.
  apply (base_vertex_draw_uploads_shifted_then_restores
           0 VUndefined sample_world
           (snd (ElementArray 0 VUndefined sample_world))
           (mkElementArray (mkBuffer 1 StaticElementArrayBuffer (VStr "ushort"))
              0 (VStr "ushort") 6)
           (snd (ElementArray 0 VUndefined sample_world))
           [0; 1; 2; 2; 3; 0]%Z 4 None None).
  - reflexivity.
  - reflexivity.
  - lia.
Defined.

(** C3.  With vertexOffset 0 or omitted, `drawTrianglesBaseVertex` issues the
    `drawElements` call and nothing else: no `subData`, and the storage of
    every buffer is what it was. *)
Theorem base_vertex_draw_zero_offset_only_draws
    (l : loc) (type : value) (w0 w1 : world) (e : element_array)
    (w : world) (indices : list Z) (vertexOffset offset count : num) :
  ElementArray l type w0 = (Ok e, w1) ->
  w_heap w !! l = Some indices ->
  vertexOffset = None \/ vertexOffset = Some 0%Z ->
  exists t w',
    get_own ElementArray_types (to_key (element_type type)) = Some t /\
    ElementArray_drawTrianglesBaseVertex e vertexOffset offset count w
      = (Ok tt, w') /\
    w_log w' =
      w_log w ++
      [DrawElements TRIANGLES (or_default count (ea_all e)) (glType t)
         (or_default offset 0 * size t)] /\
    w_buffers w' = w_buffers w.
Proof.
  intros Hnew Hl Hvo.
  destruct (ElementArray_constructed_type _ _ _ _ _ Hnew) as (t & Ht & Ht').
  destruct (ElementArray_constructed _ _ _ _ _ Hnew) as (Hi & _).
  rewrite <- Hi in Hl.
  exists t. eexists. split; [exact Ht'|]. split.
  - apply drawTrianglesBaseVertex_run; eassumption.
  - destruct Hvo as [-> | ->]; split; reflexivity.
Qed.

Lemma base_vertex_draw_zero_offset_only_draws_witness :
  exists t w',
    get_own ElementArray_types (to_key (element_type (VStr "ubyte"))) = Some t /\
    ElementArray_drawTrianglesBaseVertex
      (mkElementArray (mkBuffer 1 StaticElementArrayBuffer (VStr "ubyte")) 0
         (VStr "ubyte") 6)
      (Some 0%Z) (Some 3%Z) (Some 3%Z)
      (snd (ElementArray 0 (VStr "ubyte") sample_world)) = (Ok tt, w') /\
    w_log w' =
      w_log (snd (ElementArray 0 (VStr "ubyte") sample_world)) ++
      [DrawElements TRIANGLES 3 (glType t) (3 * size t)] /\
    w_buffers w' = w_buffers (snd (ElementArray 0 (VStr "ubyte") sample_world)).
Proof.
  apply (base_vertex_draw_zero_offset_only_draws
           0 (VStr "ubyte") sample_world
           (snd (ElementArray 0 (VStr "ubyte") sample_world))
           (mkElementArray (mkBuffer 1 StaticElementArrayBuffer (VStr "ubyte"))
              0 (VStr "ubyte") 6)
           (snd (ElementArray 0 (VStr "ubyte") sample_world))
           [0; 1; 2; 2; 3; 0]%Z (Some 0%Z) (Some 3%Z) (Some 3%Z)).
  - reflexivity.
  - reflexivity.
  - right. reflexivity.
Defined.

(** *** Buffer contents *)

Lemma write_at_full (data store : list Z) :
  length data = length store -> write_at 0 data store = data.
Proof.
  intros Hlen. unfold write_at. cbn [Nat.add].
  rewrite Hlen, Nat.leb_refl, take_0, drop_ge by lia.
  cbn. apply app_nil_r.
Qed.

Lemma to_typed_representable (type : value) (indices : list Z) :
  hasOwnProperty ElementArray_types type = true ->
  Forall (representable type) indices ->
  map (to_typed type) indices = indices.
Proof.
  intros Hown Hall. apply ElementArray_types_own in Hown.
  induction Hall as [|z zs Hz _ IH]; [reflexivity|].
  cbn [map]. rewrite IH. f_equal.
  unfold representable in Hz.
  destruct Hown as [-> | ->]; cbn in Hz |- *; apply Z.mod_small; lia.
Qed.

(** C2.  Whatever the vertexOffset, when `drawTrianglesBaseVertex` is called
    on a buffer holding the upload of the index list, it returns with the
    buffer holding that upload again (which is the index list itself when
    the indices fit the element type), and no array that was on the heap
    before the call has changed, the index list included. *)
Theorem base_vertex_draw_restores_buffer_and_keeps_indices
    (l : loc) (type : value) (w0 w1 : world) (e : element_array)
    (w : world) (indices : list Z) (vertexOffset offset count : num) :
  ElementArray l type w0 = (Ok e, w1) ->
  w_heap w !! l = Some indices ->
  w_buffers w !! b_handle (ea_buffer e)
    = Some (map (to_typed (element_type type)) indices) ->
  exists w',
    ElementArray_drawTrianglesBaseVertex e vertexOffset offset count w
      = (Ok tt, w') /\
    w_buffers w' !! b_handle (ea_buffer e)
      = Some (map (to_typed (element_type type)) indices) /\
    (Forall (representable (element_type type)) indices ->
     w_buffers w' !! b_handle (ea_buffer e) = Some indices) /\
    w_buffers w' = w_buffers w /\
    w_heap w' !! l = Some indices /\
    (forall l0 a, w_heap w !! l0 = Some a -> w_heap w' !! l0 = Some a).
Proof.
  intros Hnew Hl Hb.
  destruct (ElementArray_constructed_type _ _ _ _ _ Hnew) as (t & Ht & _).
  destruct (ElementArray_constructed _ _ _ _ _ Hnew)
    as (Hi & _ & _ & Hbuf & Hown & _).
  assert (Hbt : b_type (ea_buffer e) = element_type type) by (rewrite Hbuf; reflexivity).
  rewrite <- Hi in Hl.
  eexists. split; [apply drawTrianglesBaseVertex_run; eassumption|].
  set (h := b_handle (ea_buffer e)) in *.
  assert (Hbufs : w_buffers
                    (after_drawTrianglesBaseVertex e t indices
                       (or_default vertexOffset 0) offset count w)
                  = w_buffers w).
  { unfold after_drawTrianglesBaseVertex. fold h.
    destruct (or_default vertexOffset 0 =? 0)%Z; [reflexivity|].
    cbn [w_buffers]. rewrite Hbt, Hb. cbn [default from_option id].
    rewrite (write_at_full (map _ (map _ indices)) (map _ indices))
      by (rewrite !length_map; reflexivity).
    rewrite list_lookup_insert_eq by (eapply lookup_lt_Some, Hb).
    cbn [default from_option id].
    rewrite write_at_full by (rewrite !length_map; reflexivity).
    rewrite list_insert_insert_eq. apply list_insert_id, Hb. }
  assert (Hheap : forall l0 a, w_heap w !! l0 = Some a ->
            w_heap (after_drawTrianglesBaseVertex e t indices
                      (or_default vertexOffset 0) offset count w) !! l0 = Some a).
  { intros l0 a Hl0. unfold after_drawTrianglesBaseVertex.
    destruct (or_default vertexOffset 0 =? 0)%Z; cbn [w_heap];
      apply lookup_app_l_Some, Hl0. }
  rewrite Hbufs, Hb. repeat split.
  - intros Hall. rewrite to_typed_representable by assumption. reflexivity.
  - rewrite <- Hi. apply Hheap, Hl.
  - exact Hheap.
Qed.

Lemma base_vertex_draw_restores_buffer_and_keeps_indices_witness :
  exists w',
    ElementArray_drawTrianglesBaseVertex
      (mkElementArray (mkBuffer 1 StaticElementArrayBuffer (VStr "ubyte")) 0
         (VStr "ubyte") 6)
      (Some 254%Z) None None
      (snd (ElementArray 0 (VStr "ubyte") sample_world)) = (Ok tt, w') /\
    w_buffers w' !! 1
      = Some (map (to_typed (element_type (VStr "ubyte"))) [0; 1; 2; 2; 3; 0]%Z) /\
    (Forall (representable (element_type (VStr "ubyte"))) [0; 1; 2; 2; 3; 0]%Z ->
     w_buffers w' !! 1 = Some [0; 1; 2; 2; 3; 0]%Z) /\
    w_buffers w' = w_buffers (snd (ElementArray 0 (VStr "ubyte") sample_world)) /\
    w_heap w' !! 0 = Some [0; 1; 2; 2; 3; 0]%Z /\
    (forall l0 a,
        w_heap (snd (ElementArray 0 (VStr "ubyte") sample_world)) !! l0 = Some a ->
        w_heap w' !! l0 = Some a).
Proof.
  apply (base_vertex_draw_restores_buffer_and_keeps_indices
           0 (VStr "ubyte") sample_world
           (snd (ElementArray 0 (VStr "ubyte") sample_world))
           (mkElementArray (mkBuffer 1 StaticElementArrayBuffer (VStr "ubyte"))
              0 (VStr "ubyte") 6)
           (snd (ElementArray 0 (VStr "ubyte") sample_world))
           [0; 1; 2; 2; 3; 0]%Z (Some 254%Z) None None).
  - reflexivity.
  - reflexivity.
  - reflexivity.
Defined.

(** *** Defaults *)

(** C8.  With an omitted or falsy type the constructor works with 'ushort':
    it creates a static element buffer of type 'ushort', and every draw
    helper of the returned object passes `UNSIGNED_SHORT` to `drawElements`
    with, as byte offset, twice the element offset it is given (0 when the
    offset is omitted).  The count passed is the count argument, or the
    number of indices when that is omitted or 0. *)
Theorem ElementArray_type_defaults_to_ushort
    (l : loc) (type : value) (w0 : world) :
  truthy type = false ->
  exists e w1,
    ElementArray l type w0 = (Ok e, w1) /\
    ea_type e = VStr "ushort" /\
    ea_buffer e = mkBuffer (length (w_buffers w0)) StaticElementArrayBuffer
                    (VStr "ushort") /\
    w_log w1 =
      w_log w0 ++
      [NewBuffer StaticElementArrayBuffer (VStr "ushort") (length (w_buffers w0));
       BindAndData (length (w_buffers w0)) (heap_get (w_heap w0) l)] /\
    ea_all e = Z.of_nat (length (heap_get (w_heap w0) l)) /\
    (forall offset count w,
        let draw mode :=
          (Ok tt,
           mkWorld (w_heap w) (w_buffers w)
             (w_log w ++
              [DrawElements mode
                 (match count with
                  | Some c => if (c =? 0)%Z then ea_all e else c
                  | None => ea_all e
                  end)
                 UNSIGNED_SHORT
                 (match offset with Some o => o * 2 | None => 0 end)])) in
        ElementArray_drawTriangles e offset count w = draw TRIANGLES /\
        ElementArray_drawTriangleFan e offset count w = draw TRIANGLE_FAN /\
        ElementArray_drawTriangleStrip e offset count w = draw TRIANGLE_STRIP) /\
    (forall vertexOffset offset count w indices,
        w_heap w !! l = Some indices ->
        exists w' before after,
          ElementArray_drawTrianglesBaseVertex e vertexOffset offset count w
            = (Ok tt, w') /\
          w_log w' =
            w_log w ++ before ++
            [DrawElements TRIANGLES
               (match count with
                | Some c => if (c =? 0)%Z then ea_all e else c
                | None => ea_all e
                end)
               UNSIGNED_SHORT
               (match offset with Some o => o * 2 | None => 0 end)] ++ after /\
          (forall ev, ev ∈ before ++ after ->
                      exists h pos data, ev = SubData h pos data)).
Proof.
  intros Hfalsy.
  assert (Het : element_type type = VStr "ushort").
  { unfold element_type. rewrite Hfalsy. reflexivity. }
  pose proof (ElementArray_run l type w0) as Hrun.
  rewrite Het in Hrun. cbn [hasOwnProperty ElementArray_types get_own to_key
                            String.eqb Ascii.eqb Bool.eqb] in Hrun.
  cbv zeta in Hrun.
  assert (Hoff : forall offset : num,
             (or_default offset 0 * 2)%Z
             = match offset with Some o => (o * 2)%Z | None => 0%Z end).
  { intros offset. rewrite or_default_zero. destruct offset; reflexivity. }
  eexists. eexists. split; [exact Hrun|].
  cbn [ea_type ea_buffer ea_all w_log].
  do 4 (split; [reflexivity|]). split.
  - intros offset count w.
    match goal with
    | |- context [ElementArray_drawTriangles ?e _ _ _] =>
        pose proof (ElementArray_draw_run e (mkType UNSIGNED_SHORT 2)
                      offset count w eq_refl) as Hdraw
    end.
    cbv zeta in Hdraw |- *. cbn [glType size ea_all] in Hdraw.
    rewrite Hoff in Hdraw. exact Hdraw.
  - intros vertexOffset offset count w indices Hl.
    eexists.
    exists (if (or_default vertexOffset 0 =? 0)%Z then []
            else [SubData (length (w_buffers w0)) 0
                    (map (fun x => x + or_default vertexOffset 0)%Z indices)]).
    exists (if (or_default vertexOffset 0 =? 0)%Z then []
            else [SubData (length (w_buffers w0)) 0 indices]).
    split; [|split].
    + apply (drawTrianglesBaseVertex_run _ (mkType UNSIGNED_SHORT 2) indices);
        [reflexivity|exact Hl].
    + rewrite <- Hoff. unfold after_drawTrianglesBaseVertex.
      destruct (or_default vertexOffset 0 =? 0)%Z; reflexivity.
    + intros ev Hev.
      destruct (or_default vertexOffset 0 =? 0)%Z; cbn in Hev.
      * inversion Hev.
      * apply elem_of_cons in Hev as [-> | Hev]; [eauto|].
        apply elem_of_cons in Hev as [-> | Hev]; [eauto|]. inversion Hev.
Qed.

Lemma ElementArray_type_defaults_to_ushort_witness :
  truthy (VStr "") = false /\
  exists e w1,
    ElementArray 0 (VStr "") sample_world = (Ok e, w1) /\
    ea_type e = VStr "ushort" /\
    ElementArray_drawTriangleFan e (Some 3%Z) (Some 2%Z) w1 =
      (Ok tt,
       mkWorld (w_heap w1) (w_buffers w1)
         (w_log w1 ++ [DrawElements TRIANGLE_FAN 2 UNSIGNED_SHORT 6])) /\
    ElementArray_drawTriangles e (Some 3%Z) None w1 =
      (Ok tt,
       mkWorld (w_heap w1) (w_buffers w1)
         (w_log w1 ++ [DrawElements TRIANGLES 6 UNSIGNED_SHORT 6])).
Proof.
  split; [reflexivity|].
  destruct (ElementArray_type_defaults_to_ushort 0 (VStr "") sample_world eq_refl)
    as (e & w1 & Hnew & Hty & _ & _ & Hall & Hdraw & _).
  exists e, w1. split; [exact Hnew|]. split; [exact Hty|]. split.
  - exact (proj1 (proj2 (Hdraw (Some 3%Z) (Some 2%Z) w1))).
  - pose proof (proj1 (Hdraw (Some 3%Z) None w1)) as Htri.
    cbv zeta in Htri. rewrite Hall in Htri. exact Htri.
Defined.

(** C9.  An explicit count of 0 is treated differently by the two families
    of draw helpers: the helpers of an element array replace it by the
    number of indices the constructor saw (`count || all`), the helpers of
    an attribute-array set, called with two arguments, pass it on. *)
Theorem explicit_zero_count_differs
    (l : loc) (type : value) (w0 w1 : world) (e : element_array) :
  ElementArray l type w0 = (Ok e, w1) ->
  (exists t,
      get_own ElementArray_types (to_key (element_type type)) = Some t /\
      forall offset w,
        let draw mode :=
          (Ok tt,
           mkWorld (w_heap w) (w_buffers w)
             (w_log w ++ [DrawElements mode
                            (Z.of_nat (length (heap_get (w_heap w0) l)))
                            (glType t) (or_default offset 0 * size t)])) in
        ElementArray_drawTriangles e offset (Some 0%Z) w = draw TRIANGLES /\
        ElementArray_drawTriangleFan e offset (Some 0%Z) w = draw TRIANGLE_FAN /\
        ElementArray_drawTriangleStrip e offset (Some 0%Z) w
          = draw TRIANGLE_STRIP) /\
  (forall s offset w,
      let draw mode :=
        (Ok tt,
         mkWorld (w_heap w) (w_buffers w)
           (w_log w ++ [DrawArrays mode offset (Some 0%Z)])) in
      AttributeArrays_drawTriangles s [offset; Some 0%Z] w = draw TRIANGLES /\
      AttributeArrays_drawTriangleFan s [offset; Some 0%Z] w = draw TRIANGLE_FAN /\
      AttributeArrays_drawTriangleStrip s [offset; Some 0%Z] w
        = draw TRIANGLE_STRIP).
Proof.
  intros Hnew. split.
  - destruct (ElementArray_constructed_type _ _ _ _ _ Hnew) as (t & Ht & Ht').
    destruct (ElementArray_constructed _ _ _ _ _ Hnew) as (_ & _ & Hall & _).
    exists t. split; [exact Ht'|]. intros offset w.
    pose proof (ElementArray_draw_run e t offset (Some 0%Z) w Ht) as Hdraw.
    cbn [or_default Z.eqb] in Hdraw. rewrite Hall in Hdraw. exact Hdraw.
  - intros s offset w. repeat split.
Qed.

Lemma explicit_zero_count_differs_witness :
  ElementArray_drawTriangles
    (mkElementArray (mkBuffer 1 StaticElementArrayBuffer (VStr "ushort")) 0
       (VStr "ushort") 6) None (Some 0%Z) sample_world
  = (Ok tt,
     mkWorld (w_heap sample_world) (w_buffers sample_world)
       (w_log sample_world ++ [DrawElements TRIANGLES 6 UNSIGNED_SHORT 0])) /\
  AttributeArrays_drawTriangles (AttributeArrays (Some 6%Z)) [None; Some 0%Z]
    sample_world
  = (Ok tt,
     mkWorld (w_heap sample_world) (w_buffers sample_world)
       (w_log sample_world ++ [DrawArrays TRIANGLES None (Some 0%Z)])).
Proof.
  destruct (explicit_zero_count_differs 0 VUndefined sample_world
              (snd (ElementArray 0 VUndefined sample_world))
              (mkElementArray (mkBuffer 1 StaticElementArrayBuffer (VStr "ushort"))
                 0 (VStr "ushort") 6) eq_refl)
    as [(t & Ht & Hel) Hattr].
  injection Ht as <-.
  split.
  - exact (proj1 (Hel None sample_world)).
  - exact (proj1 (Hattr (AttributeArrays (Some 6%Z)) None sample_world)).
Defined.

(** ** Attribute-array sets *)

(** Every `add` method is the same push of a new static attribute array
    whose index is the current length of the list. *)
Lemma call_add_run (c : add_call) (s : attribute_arrays) (w : world) :
  call_add c s w =
  match AttributeArray (arrays_length s) (type_name c) (components c)
          (VStr "static") (add_data c) (add_normalize c) w with
  | (Ok a, w') => (Ok (push s a), w')
  | (Throw t, w') => (Throw t, w')
  end.
Proof.
  destruct c as [[] [] d n]; reflexivity.
Qed.

Lemma slots_in_order_empty (count : num) : slots_in_order (AttributeArrays count).
Proof. intros k a Hk. destruct k; discriminate Hk. Qed.

Lemma call_add_outcome (c : add_call) (s : attribute_arrays) (w : world) :
  (hasOwnProperty AttributeArray_types (type_name c) = true /\
   exists a w', call_add c s w = (Ok (push s a), w') /\
                aa_index a = arrays_length s) \/
  (hasOwnProperty AttributeArray_types (type_name c) = false /\
   exists t, call_add c s w = (Throw t, w)).
Proof.
  rewrite call_add_run, AttributeArray_run.
  destruct (hasOwnProperty AttributeArray_types (type_name c)).
  - left. split; [reflexivity|]. cbn. eauto.
  - right. eauto.
Qed.

Lemma slots_in_order_push (s : attribute_arrays) (a : attribute_array) :
  slots_in_order s -> aa_index a = arrays_length s -> slots_in_order (push s a).
Proof.
  intros Hs Ha k b Hk. cbn in Hk.
  apply lookup_snoc_Some in Hk as [[_ Hk] | [-> <-]].
  - apply Hs, Hk.
  - exact Ha.
Qed.

Lemma run_adds_slots (cs : list add_call) (s : attribute_arrays) (w : world) :
  slots_in_order s ->
  slots_in_order (fst (run_adds cs s w)) /\
  length (arrays (fst (run_adds cs s w)))
    = length (arrays s) + length (List.filter add_succeeds cs).
Proof.
  revert s w. induction cs as [|c cs IH]; intros s w Hs.
  - cbn. split; [exact Hs|lia].
  - cbn [run_adds List.filter].
    unfold add_succeeds at 1.
    destruct (call_add_outcome c s w)
      as [(Hown & a & w' & -> & Ha) | (Hown & t & ->)]; rewrite Hown.
    + destruct (IH (push s a) w' (slots_in_order_push _ _ Hs Ha)) as [H1 H2].
      split; [exact H1|]. rewrite H2. cbn. rewrite length_app. cbn. lia.
    + apply IH, Hs.
Qed.

Lemma for_each_emit (f : nat -> event) (idxs : list nat) (w : world) :
  for_each idxs (fun i => emit (f i)) w =
  (Ok tt, mkWorld (w_heap w) (w_buffers w) (w_log w ++ map f idxs)).
Proof.
  revert w. induction idxs as [|i idxs IH]; intros w.
  - cbn. rewrite app_nil_r. destruct w; reflexivity.
  - cbn [for_each map]. unfold mbind, M_bind, bind. cbn.
    rewrite IH. cbn. rewrite <- app_assoc. reflexivity.
Qed.

Lemma slots_as_positions (f : Z -> event) (arrs : list attribute_array) (base : nat) :
  (forall k a, arrs !! k = Some a -> aa_index a = Z.of_nat (base + k)) ->
  map (fun a => f (aa_index a)) arrs
    = map (fun k => f (Z.of_nat k)) (seq base (length arrs)).
Proof.
  revert base. induction arrs as [|a arrs IH]; intros base H; [reflexivity|].
  cbn. f_equal.
  - rewrite (H 0 a eq_refl), Nat.add_0_r. reflexivity.
  - apply IH. intros k b Hk. rewrite (H (S k) b Hk). f_equal. lia.
Qed.

(** C7.  In a set built by any script of `add` calls, the array at position
    k of the list has attribute index k; the list has one array per call
    that did not throw; `enable()` and `disable()` issue one call for each
    of the indices 0 .. n-1, in order, which are the indices of the arrays
    of the set. *)
Theorem AttributeArrays_slots_follow_positions
    (count : num) (cs : list add_call) (w0 : world) :
  let s := fst (run_adds cs (AttributeArrays count) w0) in
  let n := length (arrays s) in
  (forall k a, arrays s !! k = Some a -> aa_index a = Z.of_nat k) /\
  n = length (List.filter add_succeeds cs) /\
  (forall w,
      AttributeArrays_enable s w =
      (Ok tt,
       mkWorld (w_heap w) (w_buffers w)
         (w_log w ++ map (fun k => EnableVertexAttribArray (Z.of_nat k)) (seq 0 n)))
      /\
      AttributeArrays_disable s w =
      (Ok tt,
       mkWorld (w_heap w) (w_buffers w)
         (w_log w ++ map (fun k => DisableVertexAttribArray (Z.of_nat k)) (seq 0 n))))
  /\
  map (fun k => EnableVertexAttribArray (Z.of_nat k)) (seq 0 n)
    = map (fun a => EnableVertexAttribArray (aa_index a)) (arrays s) /\
  map (fun k => DisableVertexAttribArray (Z.of_nat k)) (seq 0 n)
    = map (fun a => DisableVertexAttribArray (aa_index a)) (arrays s).
Proof.
  intros s n.
  destruct (run_adds_slots cs (AttributeArrays count) w0
              (slots_in_order_empty count)) as [Hs Hn].
  fold s in Hs, Hn. split; [exact Hs|]. split; [exact Hn|]. split; [|split].
  - intros w. split; apply for_each_emit.
  - symmetry. apply (slots_as_positions EnableVertexAttribArray _ 0), Hs.
  - symmetry. apply (slots_as_positions DisableVertexAttribArray _ 0), Hs.
Qed.

Lemma AttributeArrays_slots_follow_positions_witness :
  let s := fst (run_adds
                  [mkAdd Three KFloat 0 VUndefined;
                   mkAdd Two (KType (VStr "double")) 0 VUndefined;
                   mkAdd Four KUByte 0 (VBool true)]
                  (AttributeArrays None) sample_world) in
  (forall k a, arrays s !! k = Some a -> aa_index a = Z.of_nat k) /\
  length (arrays s) = 2 /\
  fst (AttributeArrays_enable s sample_world) = Ok tt /\
  w_log (snd (AttributeArrays_enable s sample_world))
    = [EnableVertexAttribArray 5; EnableVertexAttribArray 0;
       EnableVertexAttribArray 1].
Proof.
  intros s. subst s.
  destruct (AttributeArrays_slots_follow_positions None
              [mkAdd Three KFloat 0 VUndefined;
               mkAdd Two (KType (VStr "double")) 0 VUndefined;
               mkAdd Four KUByte 0 (VBool true)] sample_world)
    as (Hs & Hn & Hen & _).
  cbv zeta in Hs, Hn, Hen.
  split; [exact Hs|]. split; [exact Hn|].
  rewrite (proj1 (Hen sample_world)). split; reflexivity.
Defined.

(** * Further properties of the wrappers *)

(** ** Tables *)

Lemma number_key_not_usage_name (n : Z) :
  get_own buffer_types (to_key (VNum n)) = None.
Proof.
  unfold to_key, NilZero.string_of_int, NilZero.string_of_uint.
  destruct (Z.to_int n) as [d|d]; destruct d; reflexivity.
Qed.

Lemma buffer_types_own (v : value) (cls : buffer_class) :
  get_own buffer_types (to_key v) = Some cls <->
  (v = VStr "static" /\ cls = StaticArrayBuffer) \/
  (v = VStr "stream" /\ cls = StreamArrayBuffer) \/
  (v = VStr "dynamic" /\ cls = DynamicArrayBuffer).
Proof.
  split.
  - destruct v as [| |[]|n|s]; try discriminate.
    + rewrite number_key_not_usage_name. discriminate.
    + cbn [to_key buffer_types get_own].
      case_key s "static"; [intros [= <-]; tauto|].
      case_key s "stream"; [intros [= <-]; tauto|].
      case_key s "dynamic"; [intros [= <-]; tauto|]. discriminate.
  - intros [[-> ->]|[[-> ->]|[-> ->]]]; reflexivity.
Qed.

Lemma buffer_types_missing (v : value) :
  get_own buffer_types (to_key v) = None <-> ~ usage_name v.
Proof.
  unfold usage_name. split.
  - intros Hnone [->|[->| ->]]; discriminate Hnone.
  - intros Hno. destruct (get_own buffer_types (to_key v)) as [cls|] eqn:E;
      [|reflexivity].
    apply buffer_types_own in E. exfalso. apply Hno. tauto.
Qed.

Lemma AttributeArray_types_entry (type : value) (t : type_info) :
  get_own AttributeArray_types (to_key type) = Some t ->
  hasOwnProperty AttributeArray_types type = true ->
  glType t = gl_type_of type /\ size t = byte_size type.
Proof.
  intros Ht Hown. apply AttributeArray_types_own in Hown.
  destruct Hown as [->|[->|[->|[->| ->]]]]; cbn in Ht;
    injection Ht as <-; split; reflexivity.
Qed.


Lemma log_more_nil (w : world) : log_more w [] = w.
Proof. unfold log_more. rewrite app_nil_r. destruct w; reflexivity. Qed.

Lemma log_more_app (w : world) (xs ys : list event) :
  log_more (log_more w xs) ys = log_more w (xs ++ ys).
Proof. unfold log_more. cbn. rewrite app_assoc. reflexivity. Qed.

(** ** Construction of attribute arrays *)

(** X1.  [context.AttributeArray] ends in one of three ways.  It throws its
    error string when the type is not one of the five names; with a valid
    type it raises a TypeError exactly when `buffer_type` is not 'static',
    'stream' or 'dynamic' (the table has no entry to construct), and then
    nothing has been done; otherwise it returns. *)
Theorem AttributeArray_three_outcomes
    index type num buffer_type data normalize w :
  let r := AttributeArray index type num buffer_type data normalize w in
  (fst r = Throw TypeError <->
   attribute_type_name type /\ ~ usage_name buffer_type) /\
  (fst r = Throw TypeError -> snd r = w) /\
  ((exists a, fst r = Ok a) <->
   attribute_type_name type /\ usage_name buffer_type) /\
  (forall t, fst r = Throw t ->
             t = TypeError \/ t = ThrowValue (VStr AttributeArray_error)).
Proof.
  cbv zeta. rewrite AttributeArray_run.
  unfold attribute_type_name. rewrite <- AttributeArray_types_own.
  destruct (hasOwnProperty AttributeArray_types type).
  - destruct (get_own buffer_types (to_key buffer_type)) as [cls|] eqn:Hcls.
    + assert (Hu : usage_name buffer_type).
      { apply buffer_types_own in Hcls. unfold usage_name. tauto. }
      cbn. split; [|split; [|split]].
      * split; [discriminate|]. intros [_ Hno]. contradiction.
      * discriminate.
      * split; eauto.
      * discriminate.
    + apply buffer_types_missing in Hcls.
      cbn. split; [|split; [|split]].
      * split; auto.
      * reflexivity.
      * split; [intros [a Ha]; discriminate Ha|]. intros [_ Hu]. contradiction.
      * intros t [= <-]. auto.
  - cbn. split; [|split; [|split]].
    + split; [discriminate|]. intros [H _]. discriminate H.
    + discriminate.
    + split; [intros [a Ha]; discriminate Ha|]. intros [H _]. discriminate H.
    + intros t [= <-]. auto.
Qed.

Lemma AttributeArray_three_outcomes_witness :
  fst (AttributeArray 0 (VStr "float") 3 (VStr "steam") 0 VUndefined sample_world)
    = Throw TypeError /\
  snd (AttributeArray 0 (VStr "float") 3 (VStr "steam") 0 VUndefined sample_world)
    = sample_world.
Proof.
  destruct (AttributeArray_three_outcomes 0 (VStr "float") 3 (VStr "steam") 0
              VUndefined sample_world) as (_ & Hsame & _).
  split; [reflexivity|]. apply Hsame. reflexivity.
Defined.

(** X2.  A successful construction leaves the JavaScript heap as it was and
    issues two calls: the creation of a buffer of the class named by
    `buffer_type`, and `bindAndData` with the contents of the data array.
    The returned object keeps the index, type, number of components and
    normalize flag it was given. *)
Theorem AttributeArray_success_effects
    index type num buffer_type data normalize w a w1 :
  AttributeArray index type num buffer_type data normalize w = (Ok a, w1) ->
  w_heap w1 = w_heap w /\
  w_log w1 =
    w_log w ++ [NewBuffer (b_class (aa_buffer a)) type (b_handle (aa_buffer a));
                BindAndData (b_handle (aa_buffer a)) (heap_get (w_heap w) data)] /\
  get_own buffer_types (to_key buffer_type) = Some (b_class (aa_buffer a)) /\
  b_type (aa_buffer a) = type /\
  a = mkAttributeArray (aa_buffer a) index type num normalize.
Proof.
  rewrite AttributeArray_run.
  destruct (hasOwnProperty AttributeArray_types type); [|discriminate].
  destruct (get_own buffer_types (to_key buffer_type)) as [cls|]; [|discriminate].
  cbn. intros [= <- <-]. cbn. repeat split; reflexivity.
Qed.

Lemma AttributeArray_success_effects_witness :
  w_heap (snd (AttributeArray 4 (VStr "short") 2 (VStr "dynamic") 0
                 (VBool true) sample_world)) = w_heap sample_world /\
  w_log (snd (AttributeArray 4 (VStr "short") 2 (VStr "dynamic") 0
                (VBool true) sample_world)) =
    w_log sample_world ++
    [NewBuffer DynamicArrayBuffer (VStr "short") 1;
     BindAndData 1 [0; 1; 2; 2; 3; 0]%Z].
Proof.
  destruct (AttributeArray_success_effects 4 (VStr "short") 2 (VStr "dynamic") 0
              (VBool true) sample_world
              (mkAttributeArray (mkBuffer 1 DynamicArrayBuffer (VStr "short")) 4
                 (VStr "short") 2 (VBool true))
              (snd (AttributeArray 4 (VStr "short") 2 (VStr "dynamic") 0
                      (VBool true) sample_world))
              eq_refl) as (Hheap & Hlog & _).
  split; [exact Hheap | exact Hlog].
Defined.

(** X3.  The numbered constructors never raise a TypeError: with one of the
    five type names `AttributeArrayN`, `StreamAttributeArrayN` and
    `DynamicAttributeArrayN` return an array with the given number of
    components on a static, stream and dynamic array buffer respectively,
    and with any other type they throw the error string of
    [context.AttributeArray] without doing anything. *)
Theorem numbered_constructors_pick_the_buffer_class
    (num index : Z) (type : value) (data : loc) (normalize : value) (w : world) :
  let built (r : outcome attribute_array * world) (cls : buffer_class) :=
    if hasOwnProperty AttributeArray_types type then
      exists a, fst r = Ok a /\ b_class (aa_buffer a) = cls /\
                aa_num a = num /\ aa_index a = index
    else r = (Throw (ThrowValue (VStr AttributeArray_error)), w) in
  built (AttributeArrayN num index type data normalize w) StaticArrayBuffer /\
  built (StreamAttributeArrayN num index type data normalize w) StreamArrayBuffer /\
  built (DynamicAttributeArrayN num index type data normalize w) DynamicArrayBuffer.
Proof.
  cbv zeta.
  unfold AttributeArrayN, StreamAttributeArrayN, DynamicAttributeArrayN.
  rewrite !AttributeArray_run.
  destruct (hasOwnProperty AttributeArray_types type); cbn;
    repeat split; eauto.
Qed.

(** ** Methods of an attribute array *)

Lemma typed_array_entry (a : attribute_array) :
  typed_array a ->
  exists t, get_own AttributeArray_types (to_key (aa_type a)) = Some t /\
            glType t = gl_type_of (aa_type a) /\ size t = byte_size (aa_type a).
Proof.
  intros Hown. destruct (hasOwnProperty_get _ _ Hown) as [t Ht].
  exists t. split; [exact Ht|]. apply AttributeArray_types_entry; assumption.
Qed.

Lemma AttributeArray_pointer_run (a : attribute_array) (stride offset : num)
    (w : world) :
  typed_array a ->
  AttributeArray_pointer a stride offset w
    = (Ok tt, log_more w [pointer_call a stride offset]).
Proof.
  intros Ha. destruct (typed_array_entry a Ha) as (t & Ht & Hgl & Hsz).
  unfold AttributeArray_pointer, mbind, M_bind, bind, get_entry, pointer_call.
  rewrite Ht. cbn. rewrite Hgl, Hsz. reflexivity.
Qed.

Lemma AttributeArray_bindAndPointer_run (a : attribute_array)
    (stride offset : num) (w : world) :
  typed_array a ->
  AttributeArray_bindAndPointer a stride offset w
    = (Ok tt, log_more w [bind_call a; pointer_call a stride offset]).
Proof.
  intros Ha. destruct (typed_array_entry a Ha) as (t & Ht & Hgl & Hsz).
  unfold AttributeArray_bindAndPointer, mbind, M_bind, bind, get_entry,
    pointer_call, bind_call, emit, log_more.
  rewrite Ht. cbn. rewrite Hgl, Hsz, <- app_assoc. reflexivity.
Qed.

Lemma AttributeArray_enableBindAndPointer_run (a : attribute_array)
    (stride offset : num) (w : world) :
  typed_array a ->
  AttributeArray_enableBindAndPointer a stride offset w
    = (Ok tt,
       log_more w [EnableVertexAttribArray (aa_index a); bind_call a;
                   pointer_call a stride offset]).
Proof.
  intros Ha. destruct (typed_array_entry a Ha) as (t & Ht & Hgl & Hsz).
  unfold AttributeArray_enableBindAndPointer, mbind, M_bind, bind, get_entry,
    pointer_call, bind_call, emit, log_more.
  rewrite Ht. cbn. rewrite Hgl, Hsz, <- !app_assoc. reflexivity.
Qed.

(** X4.  On a constructed attribute array `enableBindAndPointer(stride,
    offset)` cannot fail and is `enable()`, then `bind()`, then
    `pointer(stride, offset)`: it issues `enableVertexAttribArray(index)`,
    `bindBuffer(ARRAY_BUFFER, buffer)` and `vertexAttribPointer` with the GL
    constant of the type name, `!!normalize`, and stride and offset scaled by
    the byte size.  The heap and the buffers are not touched. *)
Theorem enableBindAndPointer_is_enable_bind_pointer
    index type num buffer_type data normalize w0 a w1 :
  AttributeArray index type num buffer_type data normalize w0 = (Ok a, w1) ->
  forall stride offset w,
    AttributeArray_enableBindAndPointer a stride offset w =
      (AttributeArray_enable a;; Buffer_bind (aa_buffer a);;
       AttributeArray_pointer a stride offset) w /\
    AttributeArray_enableBindAndPointer a stride offset w =
      (Ok tt,
       log_more w
         [EnableVertexAttribArray index;
          BindBuffer ARRAY_BUFFER (b_handle (aa_buffer a));
          VertexAttribPointer index num (gl_type_of type) (truthy normalize)
            (or_default stride 0 * byte_size type)
            (or_default offset 0 * byte_size type)]).
Proof.
  intros Hnew stride offset w.
  destruct (AttributeArray_constructed _ _ _ _ _ _ _ _ _ Hnew)
    as (Hi & Ht & Hn & Hz & Hown & Hcls).
  assert (Ha : typed_array a) by (unfold typed_array; rewrite Ht; exact Hown).
  split.
  - unfold AttributeArray_enableBindAndPointer, AttributeArray_enable,
      AttributeArray_pointer, Buffer_bind.
    destruct (b_class (aa_buffer a)); try reflexivity. congruence.
  - rewrite AttributeArray_enableBindAndPointer_run by exact Ha.
    unfold pointer_call, bind_call. rewrite Hi, Ht, Hn, Hz. reflexivity.
Qed.

Lemma enableBindAndPointer_is_enable_bind_pointer_witness :
  AttributeArray_enableBindAndPointer
    (mkAttributeArray (mkBuffer 1 StreamArrayBuffer (VStr "ushort")) 3
       (VStr "ushort") 4 (VNum 1)) (Some 6%Z) (Some 2%Z) sample_world =
  (Ok tt,
   log_more sample_world
     [EnableVertexAttribArray 3; BindBuffer ARRAY_BUFFER 1;
      VertexAttribPointer 3 4 UNSIGNED_SHORT true 12 4]).
Proof.
  apply (enableBindAndPointer_is_enable_bind_pointer 3 (VStr "ushort") 4
           (VStr "stream") 0 (VNum 1) sample_world
           (mkAttributeArray (mkBuffer 1 StreamArrayBuffer (VStr "ushort")) 3
              (VStr "ushort") 4 (VNum 1))
           (snd (AttributeArray 3 (VStr "ushort") 4 (VStr "stream") 0 (VNum 1)
                   sample_world))
           eq_refl (Some 6%Z) (Some 2%Z) sample_world).
Defined.

(** ** The `add` methods *)

Lemma call_add_success (c : add_call) (s : attribute_arrays) (w : world) :
  hasOwnProperty AttributeArray_types (type_name c) = true ->
  let a := mkAttributeArray
             (mkBuffer (length (w_buffers w)) StaticArrayBuffer (type_name c))
             (arrays_length s) (type_name c) (components c) (add_normalize c) in
  call_add c s w =
  (Ok (push s a),
   mkWorld (w_heap w)
     (<[length (w_buffers w) :=
          map (to_typed (type_name c)) (heap_get (w_heap w) (add_data c))]>
        (w_buffers w ++ [[]]))
     (w_log w ++ [NewBuffer StaticArrayBuffer (type_name c) (length (w_buffers w));
                  BindAndData (length (w_buffers w))
                    (heap_get (w_heap w) (add_data c))])).
Proof.
  intros Hown. rewrite call_add_run, AttributeArray_run, Hown. reflexivity.
Qed.

Lemma call_add_failure (c : add_call) (s : attribute_arrays) (w : world) :
  hasOwnProperty AttributeArray_types (type_name c) = false ->
  call_add c s w = (Throw (ThrowValue (VStr AttributeArray_error)), w).
Proof.
  intros Hown. rewrite call_add_run, AttributeArray_run, Hown. reflexivity.
Qed.

(** The methods whose name fixes the type pass a name of the table. *)
Lemma fixed_type_add_succeeds (c : add_call) :
  (forall type, add_type c <> KType type) ->
  hasOwnProperty AttributeArray_types (type_name c) = true.
Proof.
  intros Hfixed. unfold type_name.
  destruct (add_type c) as [type| | | | |]; try reflexivity.
  exfalso. apply (Hfixed type). reflexivity.
Qed.

(** X5.  Each of the 24 `add` methods either fails or adds exactly one
    array.  With a type name outside the five (possible for `add1` ..
    `add4` only: the methods whose name fixes the type cannot fail) it throws
    the error string of [context.AttributeArray] and the set and the world
    are as before; it never raises a TypeError.  Otherwise it appends one
    array to the list, with the next index, the method's number of components
    and type, on a new static array buffer, and issues the two calls that
    create the buffer and upload the data. *)
Theorem add_appends_one_array_or_fails
    (c : add_call) (s : attribute_arrays) (w : world) :
  ((~ attribute_type_name (type_name c) /\
    call_add c s w = (Throw (ThrowValue (VStr AttributeArray_error)), w)) \/
   (attribute_type_name (type_name c) /\
    exists a w',
      call_add c s w = (Ok (mkAttributeArrays (arrays s ++ [a]) (all s)), w') /\
      aa_index a = Z.of_nat (length (arrays s)) /\
      aa_num a = components c /\ aa_type a = type_name c /\
      aa_normalize a = add_normalize c /\
      b_class (aa_buffer a) = StaticArrayBuffer /\
      w_heap w' = w_heap w /\
      w_log w' =
        w_log w ++ [NewBuffer StaticArrayBuffer (type_name c) (b_handle (aa_buffer a));
                    BindAndData (b_handle (aa_buffer a))
                      (heap_get (w_heap w) (add_data c))])) /\
  ((forall type, add_type c <> KType type) ->
   attribute_type_name (type_name c)).
Proof.
  unfold attribute_type_name. rewrite <- AttributeArray_types_own. split.
  - destruct (hasOwnProperty AttributeArray_types (type_name c)) eqn:Hown.
    + right. split; [reflexivity|].
      eexists. eexists. split; [apply call_add_success, Hown|].
      cbn. repeat split; reflexivity.
    + left. split; [discriminate|]. apply call_add_failure, Hown.
  - apply fixed_type_add_succeeds.
Qed.

Lemma add_appends_one_array_or_fails_witness :
  attribute_type_name (type_name (mkAdd Two KUShort 0 VUndefined)) /\
  call_add (mkAdd Three (KType (VStr "int")) 0 VUndefined)
    (AttributeArrays None) sample_world
  = (Throw (ThrowValue (VStr AttributeArray_error)), sample_world).
Proof.
  split.
  - apply (proj2 (add_appends_one_array_or_fails
                    (mkAdd Two KUShort 0 VUndefined) (AttributeArrays None)
                    sample_world)).
    intros type. discriminate.
  - destruct (proj1 (add_appends_one_array_or_fails
                       (mkAdd Three (KType (VStr "int")) 0 VUndefined)
                       (AttributeArrays None) sample_world))
      as [[_ Hthrow] | [Hname _]].
    + exact Hthrow.
    + exfalso. destruct Hname as [H|[H|[H|[H|H]]]]; discriminate H.
Defined.

Lemma run_adds_effects (cs : list add_call) (s : attribute_arrays) (w : world) :
  Forall typed_array (arrays s) ->
  let r := run_adds cs s w in
  Forall typed_array (arrays (fst r)) /\
  all (fst r) = all s /\
  w_heap (snd r) = w_heap w /\
  exists calls,
    w_log (snd r) = w_log w ++ calls /\
    length calls = 2 * length (List.filter add_succeeds cs) /\
    Forall is_upload_call calls.
Proof.
  revert s w. induction cs as [|c cs IH]; intros s w Hs; cbv zeta.
  - cbn. repeat split; try assumption.
    exists []. rewrite app_nil_r. repeat split. constructor.
  - cbn [run_adds List.filter]. unfold add_succeeds at 1.
    destruct (hasOwnProperty AttributeArray_types (type_name c)) eqn:Hown.
    + rewrite (call_add_success c s w Hown). cbv zeta.
      match goal with
      | |- context [run_adds cs ?s1 ?w1] =>
          destruct (IH s1 w1) as (H1 & H2 & H3 & calls & H4 & H5 & H6)
      end.
      { cbn. apply Forall_app. split; [exact Hs|].
        constructor; [exact Hown|constructor]. }
      split; [exact H1|]. split; [exact H2|]. split; [exact H3|].
      eexists. split; [rewrite H4; cbn; rewrite <- app_assoc; reflexivity|].
      split.
      * cbn [app length]. rewrite H5. lia.
      * cbn [app]. repeat constructor. exact H6.
    + rewrite (call_add_failure c s w Hown). apply IH, Hs.
Qed.

(** X6.  A script of `add` calls on a fresh set only creates and uploads
    buffers: the JavaScript heap is unchanged, the log grows by two calls per
    successful `add`, each a creation of a static array buffer or a
    `bindAndData`, and the `count` of the set stays the one given to the
    constructor.  Every array of the resulting set has a type name of the
    table. *)
Theorem adds_only_create_and_upload
    (count : num) (cs : list add_call) (w : world) :
  let r := run_adds cs (AttributeArrays count) w in
  Forall typed_array (arrays (fst r)) /\
  all (fst r) = count /\
  w_heap (snd r) = w_heap w /\
  exists calls,
    w_log (snd r) = w_log w ++ calls /\
    length calls = 2 * length (arrays (fst r)) /\
    Forall is_upload_call calls.
Proof.
  cbv zeta.
  assert (Hempty : Forall typed_array (arrays (AttributeArrays count)))
    by constructor.
  destruct (run_adds_effects cs (AttributeArrays count) w Hempty)
    as (H1 & H2 & H3 & calls & H4 & H5 & H6).
  destruct (run_adds_slots cs (AttributeArrays count) w
              (slots_in_order_empty count)) as [_ Hlen].
  cbn in Hlen.
  split; [exact H1|]. split; [exact H2|]. split; [exact H3|].
  exists calls. rewrite Hlen. auto.
Qed.

(** ** Methods of an attribute-array set *)

(** A loop over the positions of a list whose body, at the position of an
    array, succeeds and issues calls that depend on the array only. *)
Lemma for_each_positions (body : nat -> M unit)
    (calls : attribute_array -> list event) (rest : list attribute_array) :
  forall (base : nat) (w : world),
    (forall k a w', rest !! k = Some a ->
                    body (base + k) w' = (Ok tt, log_more w' (calls a))) ->
    for_each (seq base (length rest)) body w
      = (Ok tt, log_more w (flat_map calls rest)).
Proof.
  induction rest as [|a rest IH]; intros base w Hbody.
  - cbn. rewrite log_more_nil. reflexivity.
  - cbn [length seq for_each flat_map]. unfold mbind, M_bind, bind.
    pose proof (Hbody 0 a w eq_refl) as H0. rewrite Nat.add_0_r in H0.
    rewrite H0. rewrite (IH (S base)).
    + rewrite log_more_app. reflexivity.
    + intros k b w' Hk. rewrite <- (Hbody (S k) b w' Hk). f_equal. lia.
Qed.

(** X7.  On a set built by any script of `add` calls, `bindAndPointer` and
    `enableBindAndPointer` cannot fail, and go through the arrays in the
    order they were added: `bindAndPointer` issues `bindBuffer` and
    `vertexAttribPointer` for each array, `enableBindAndPointer` the same
    preceded by `enableVertexAttribArray` of the array's own index, which is
    what calling `enableBindAndPointer` on each array in turn does. *)
Theorem set_pointer_methods_visit_arrays_in_order
    (count : num) (cs : list add_call) (w0 : world) (stride offset : num)
    (w : world) :
  let s := fst (run_adds cs (AttributeArrays count) w0) in
  AttributeArrays_bindAndPointer s stride offset w =
    (Ok tt,
     log_more w
       (flat_map (fun a => [bind_call a; pointer_call a stride offset])
          (arrays s))) /\
  AttributeArrays_enableBindAndPointer s stride offset w =
    (Ok tt,
     log_more w
       (flat_map (fun a => [EnableVertexAttribArray (aa_index a); bind_call a;
                            pointer_call a stride offset])
          (arrays s))) /\
  AttributeArrays_enableBindAndPointer s stride offset w =
    for_each (seq 0 (length (arrays s)))
      (fun i => with_array s i
                  (fun a => AttributeArray_enableBindAndPointer a stride offset))
      w.
Proof.
  intros s.
  destruct (run_adds_slots cs (AttributeArrays count) w0
              (slots_in_order_empty count)) as [Hslots _].
  assert (Hempty : Forall typed_array (arrays (AttributeArrays count)))
    by constructor.
  destruct (run_adds_effects cs (AttributeArrays count) w0 Hempty)
    as (Htyped & _).
  fold s in Hslots, Htyped.
  assert (Hin : forall k a, arrays s !! k = Some a -> typed_array a).
  { intros k a Hk. rewrite Forall_forall in Htyped.
    apply Htyped. eapply list_elem_of_lookup_2, Hk. }
  assert (Hen : AttributeArrays_enableBindAndPointer s stride offset w =
    (Ok tt,
     log_more w
       (flat_map (fun a => [EnableVertexAttribArray (aa_index a); bind_call a;
                            pointer_call a stride offset])
          (arrays s)))).
  { unfold AttributeArrays_enableBindAndPointer.
    apply for_each_positions. intros k a w' Hk. cbn [Nat.add].
    unfold mbind, M_bind, bind, with_array. cbn [emit]. rewrite Hk.
    rewrite (AttributeArray_bindAndPointer_run a) by (eapply Hin, Hk).
    rewrite (Hslots k a Hk). unfold emit. cbn. unfold log_more. cbn.
    rewrite <- app_assoc. reflexivity. }
  split; [|split].
  - unfold AttributeArrays_bindAndPointer.
    apply for_each_positions. intros k a w' Hk. cbn [Nat.add].
    unfold with_array. rewrite Hk.
    apply AttributeArray_bindAndPointer_run. eapply Hin, Hk.
  - exact Hen.
  - rewrite Hen. symmetry.
    apply for_each_positions. intros k a w' Hk. cbn [Nat.add].
    unfold with_array. rewrite Hk.
    apply AttributeArray_enableBindAndPointer_run. eapply Hin, Hk.
Qed.

(** X8.  The draw helpers of a set fill in missing arguments by their
    number, not by their value: a call without arguments is the call with
    offset 0 and the `count` of the constructor, a call with one argument is
    the call with that offset and the `count` of the constructor, arguments
    after the second are ignored, and two given arguments reach `drawArrays`
    as they are, `undefined` included.  The helpers cannot fail and touch
    nothing but the log. *)
Theorem set_draw_helpers_default_by_argument_count
    (s : attribute_arrays) (w : world) :
  let same (draw : attribute_arrays -> list num -> M unit) (mode : gl_enum) :=
    draw s [] w = draw s [Some 0%Z; all s] w /\
    (forall offset, draw s [offset] w = draw s [offset; all s] w) /\
    (forall offset count more,
        draw s (offset :: count :: more) w
          = (Ok tt, log_more w [DrawArrays mode offset count])) in
  same AttributeArrays_drawTriangles TRIANGLES /\
  same AttributeArrays_drawTriangleFan TRIANGLE_FAN /\
  same AttributeArrays_drawTriangleStrip TRIANGLE_STRIP.
Proof.
  cbv zeta. repeat split.
Qed.

(** ** Construction and draw helpers of an element array *)

(** X9.  [context.ElementArray] ends in one of three ways.  Without an
    indices array (`undefined` or `null`) it raises a TypeError, whatever the
    type.  With an indices array it never raises a TypeError: it throws its
    error string when the type is truthy and neither 'ubyte' nor 'ushort',
    and returns when the type is falsy, 'ubyte' or 'ushort'.  Every throw
    leaves the world as it was.  On return the JavaScript heap is unchanged,
    the two calls issued are the creation of a static element array buffer
    and `bindAndData` with the contents of the indices array, and the object
    remembers the indices and their number. *)
Theorem ElementArray_outcomes (indices : option loc) (type : value) (w : world) :
  let r := ElementArray_call indices type w in
  (fst r = Throw TypeError <-> indices = None) /\
  (fst r = Throw (ThrowValue (VStr ElementArray_error)) <->
   indices <> None /\ truthy type = true /\
   type <> VStr "ubyte" /\ type <> VStr "ushort") /\
  ((exists e, fst r = Ok e) <->
   indices <> None /\
   (truthy type = false \/ type = VStr "ubyte" \/ type = VStr "ushort")) /\
  (forall t, fst r = Throw t ->
             (t = TypeError \/ t = ThrowValue (VStr ElementArray_error)) /\
             snd r = w) /\
  (forall l e, indices = Some l -> fst r = Ok e ->
     w_heap (snd r) = w_heap w /\
     w_log (snd r) =
       w_log w ++
       [NewBuffer StaticElementArrayBuffer (element_type type)
          (b_handle (ea_buffer e));
        BindAndData (b_handle (ea_buffer e)) (heap_get (w_heap w) l)] /\
     b_class (ea_buffer e) = StaticElementArrayBuffer /\
     ea_indices e = l /\
     ea_all e = Z.of_nat (length (heap_get (w_heap w) l))).
Proof.
  cbv zeta. destruct indices as [l|]; cbn [ElementArray_call].
  - rewrite ElementArray_run.
    assert (Hcase : hasOwnProperty ElementArray_types (element_type type) = true
                    <-> truthy type = false \/ type = VStr "ubyte" \/
                        type = VStr "ushort").
    { rewrite ElementArray_types_own. unfold element_type.
      destruct (truthy type) eqn:Htruthy; cbn [negb].
      - split; [tauto|]. intros [H|H]; [discriminate H|exact H].
      - split; [tauto|]. intros _. right. reflexivity. }
    destruct (hasOwnProperty ElementArray_types (element_type type)) eqn:Hown.
    + pose proof (proj1 Hcase eq_refl) as Hok.
      cbn. split; [|split; [|split; [|split]]].
      * split; discriminate.
      * split; [discriminate|]. intros (_ & Ht & Hb & Hs).
        destruct Hok as [H|[H|H]]; congruence.
      * split; [intros _; split; [discriminate|exact Hok]|eauto].
      * discriminate.
      * intros l0 e [= <-] [= <-]. cbn. repeat split; reflexivity.
    + assert (Hno : ~ (truthy type = false \/ type = VStr "ubyte" \/
                       type = VStr "ushort")).
      { intros H. apply Hcase in H. discriminate H. }
      cbn. split; [|split; [|split; [|split]]].
      * split; discriminate.
      * split; [intros _|reflexivity].
        split; [discriminate|].
        destruct (truthy type) eqn:Htruthy; [|exfalso; apply Hno; tauto].
        split; [reflexivity|]. split; intros ->; apply Hno; tauto.
      * split; [intros [e He]; discriminate He|]. intros [_ H]. contradiction.
      * intros t [= <-]. split; [right|]; reflexivity.
      * discriminate.
  - cbn. split; [|split; [|split; [|split]]].
    + split; reflexivity.
    + split; [discriminate|]. intros [H _]. contradiction.
    + split; [intros [e He]; discriminate He|]. intros [H _]. contradiction.
    + intros t [= <-]. split; [left|]; reflexivity.
    + discriminate.
Qed.

Lemma ElementArray_outcomes_witness :
  fst (ElementArray_call None (VStr "uint") sample_world) = Throw TypeError /\
  snd (ElementArray_call None (VStr "uint") sample_world) = sample_world /\
  snd (ElementArray_call (Some 0) (VStr "uint") sample_world) = sample_world /\
  w_log (snd (ElementArray_call (Some 0) VNull sample_world)) =
    w_log sample_world ++
    [NewBuffer StaticElementArrayBuffer (VStr "ushort") 1;
     BindAndData 1 [0; 1; 2; 2; 3; 0]%Z].
Proof.
  split; [|split; [|split]].
  - apply (proj1 (ElementArray_outcomes None (VStr "uint") sample_world)).
    reflexivity.
  - destruct (ElementArray_outcomes None (VStr "uint") sample_world)
      as (_ & _ & _ & Hthrow & _).
    apply (Hthrow TypeError). reflexivity.
  - destruct (ElementArray_outcomes (Some 0) (VStr "uint") sample_world)
      as (_ & _ & _ & Hthrow & _).
    apply (Hthrow (ThrowValue (VStr ElementArray_error))). reflexivity.
  - destruct (ElementArray_outcomes (Some 0) VNull sample_world)
      as (_ & _ & _ & _ & Hok).
    apply (Hok 0 (mkElementArray
                    (mkBuffer 1 StaticElementArrayBuffer (VStr "ushort")) 0
                    (VStr "ushort") 6)); reflexivity.
Defined.



(** X11.  With vertexOffset omitted or 0, `drawTrianglesBaseVertex(
    vertexOffset, offset, count)` is `drawTriangles(offset, count)` as far as
    the graphics context is concerned: same outcome, same log, same buffers.
    It still takes the slice of the indices first, so the heap ends one
    array longer, the new array being a copy of the indices. *)
Theorem base_vertex_draw_without_offset_is_drawTriangles
    (l : loc) (type : value) (w0 w1 : world) (e : element_array)
    (w : world) (indices : list Z) (vertexOffset offset count : num) :
  ElementArray l type w0 = (Ok e, w1) ->
  w_heap w !! l = Some indices ->
  or_default vertexOffset 0 = 0%Z ->
  let r := ElementArray_drawTrianglesBaseVertex e vertexOffset offset count w in
  let r' := ElementArray_drawTriangles e offset count w in
  fst r = fst r' /\
  w_log (snd r) = w_log (snd r') /\
  w_buffers (snd r) = w_buffers (snd r') /\
  w_heap (snd r) = w_heap (snd r') ++ [indices].
Proof.
  intros Hnew Hl Hzero. cbv zeta.
  destruct (ElementArray_constructed_type _ _ _ _ _ Hnew) as (t & Ht & _).
  destruct (ElementArray_constructed _ _ _ _ _ Hnew) as (Hi & _).
  rewrite <- Hi in Hl.
  rewrite (drawTrianglesBaseVertex_run e t indices vertexOffset offset count w Ht Hl).
  rewrite (proj1 (ElementArray_draw_run e t offset count w Ht)).
  unfold after_drawTrianglesBaseVertex. rewrite Hzero. cbn.
  repeat split; reflexivity.
Qed.

Lemma base_vertex_draw_without_offset_is_drawTriangles_witness :
  w_log (snd (ElementArray_drawTrianglesBaseVertex
                (mkElementArray
                   (mkBuffer 1 StaticElementArrayBuffer (VStr "ushort")) 0
                   (VStr "ushort") 6) None (Some 3%Z) (Some 3%Z)
                (snd (ElementArray 0 VUndefined sample_world))))
  = w_log (snd (ElementArray_drawTriangles
                  (mkElementArray
                     (mkBuffer 1 StaticElementArrayBuffer (VStr "ushort")) 0
                     (VStr "ushort") 6) (Some 3%Z) (Some 3%Z)
                  (snd (ElementArray 0 VUndefined sample_world)))).
Proof.
  destruct (base_vertex_draw_without_offset_is_drawTriangles
              0 VUndefined sample_world
              (snd (ElementArray 0 VUndefined sample_world))
              (mkElementArray (mkBuffer 1 StaticElementArrayBuffer (VStr "ushort"))
                 0 (VStr "ushort") 6)
              (snd (ElementArray 0 VUndefined sample_world))
              [0; 1; 2; 2; 3; 0]%Z None (Some 3%Z) (Some 3%Z)
              eq_refl eq_refl eq_refl) as (_ & Hlog & _).
  exact Hlog.
Defined.

(** X12.  With a non-zero vertexOffset, the calls of
    `drawTrianglesBaseVertex` are those of `drawTriangles(offset, count)`
    between the upload of the shifted copy and the upload of the indices; the
    scratch copy left on the heap is the shifted list, of the same length as
    the index list, and both uploads carry as many entries as the index list
    has when the helper is called. *)
Theorem base_vertex_draw_wraps_drawTriangles
    (l : loc) (type : value) (w0 w1 : world) (e : element_array)
    (w : world) (indices : list Z) (vertexOffset offset count : num) :
  ElementArray l type w0 = (Ok e, w1) ->
  w_heap w !! l = Some indices ->
  or_default vertexOffset 0 <> 0%Z ->
  let v := or_default vertexOffset 0 in
  let shifted := map (fun x => x + v)%Z indices in
  let r := ElementArray_drawTrianglesBaseVertex e vertexOffset offset count w in
  exists draw,
    ElementArray_drawTriangles e offset count w = (Ok tt, log_more w [draw]) /\
    fst r = Ok tt /\
    w_log (snd r) =
      w_log w ++ [SubData (b_handle (ea_buffer e)) 0 shifted] ++ [draw]
        ++ [SubData (b_handle (ea_buffer e)) 0 indices] /\
    w_heap (snd r) = w_heap w ++ [shifted] /\
    length shifted = length indices /\
    (forall i x, indices !! i = Some x -> shifted !! i = Some (x + v)%Z).
Proof.
  intros Hnew Hl Hnz. cbv zeta.
  destruct (ElementArray_constructed_type _ _ _ _ _ Hnew) as (t & Ht & _).
  destruct (ElementArray_constructed _ _ _ _ _ Hnew) as (Hi & _).
  rewrite <- Hi in Hl.
  rewrite (drawTrianglesBaseVertex_run e t indices vertexOffset offset count w Ht Hl).
  eexists. split; [apply (proj1 (ElementArray_draw_run e t offset count w Ht))|].
  unfold after_drawTrianglesBaseVertex.
  destruct (Z.eqb_spec (or_default vertexOffset 0) 0) as [?|_]; [contradiction|].
  cbn [fst snd w_log w_heap]. repeat split.
  - apply length_map.
  - intros i x Hx.
    change (map (fun x0 => (x0 + or_default vertexOffset 0)%Z) indices)
      with ((fun x0 => (x0 + or_default vertexOffset 0)%Z) <$> indices).
    rewrite list_lookup_fmap, Hx. reflexivity.
Qed.

Lemma base_vertex_draw_wraps_drawTriangles_witness :
  exists draw,
    fst (ElementArray_drawTrianglesBaseVertex
           (mkElementArray (mkBuffer 1 StaticElementArrayBuffer (VStr "ushort"))
              0 (VStr "ushort") 6) (Some 10%Z) None None
           (snd (ElementArray 0 VUndefined sample_world))) = Ok tt /\
    w_log (snd (ElementArray_drawTrianglesBaseVertex
                  (mkElementArray
                     (mkBuffer 1 StaticElementArrayBuffer (VStr "ushort"))
                     0 (VStr "ushort") 6) (Some 10%Z) None None
                  (snd (ElementArray 0 VUndefined sample_world)))) =
      w_log (snd (ElementArray 0 VUndefined sample_world)) ++
      [SubData 1 0 [10; 11; 12; 12; 13; 10]%Z] ++ [draw]
        ++ [SubData 1 0 [0; 1; 2; 2; 3; 0]%Z].
Proof.
  destruct (base_vertex_draw_wraps_drawTriangles
              0 VUndefined sample_world
              (snd (ElementArray 0 VUndefined sample_world))
              (mkElementArray (mkBuffer 1 StaticElementArrayBuffer (VStr "ushort"))
                 0 (VStr "ushort") 6)
              (snd (ElementArray 0 VUndefined sample_world))
              [0; 1; 2; 2; 3; 0]%Z (Some 10%Z) None None
              eq_refl eq_refl ltac:(discriminate))
    as (draw & _ & Hok & Hlog & _).
  exists draw. split; [exact Hok | exact Hlog].
Defined.

(** X13.  Attribute indices are positions within one set, so sets built
    separately share them: the arrays at the same position of any two sets
    have the same attribute index, and `enable()` of the set with fewer
    arrays issues a prefix of the calls of `enable()` of the other. *)
Theorem separate_sets_share_attribute_slots
    (count1 count2 : num) (cs1 cs2 : list add_call) (w1 w2 : world) :
  let s1 := fst (run_adds cs1 (AttributeArrays count1) w1) in
  let s2 := fst (run_adds cs2 (AttributeArrays count2) w2) in
  (forall k a1 a2,
      arrays s1 !! k = Some a1 -> arrays s2 !! k = Some a2 ->
      aa_index a1 = aa_index a2) /\
  (length (arrays s1) <= length (arrays s2) ->
   forall w, exists more,
     w_log (snd (AttributeArrays_enable s2 w))
       = w_log (snd (AttributeArrays_enable s1 w)) ++ more).
Proof.
  intros s1 s2.
  destruct (run_adds_slots cs1 (AttributeArrays count1) w1
              (slots_in_order_empty count1)) as [H1 _].
  destruct (run_adds_slots cs2 (AttributeArrays count2) w2
              (slots_in_order_empty count2)) as [H2 _].
  fold s1 in H1. fold s2 in H2. split.
  - intros k a1 a2 Hk1 Hk2. rewrite (H1 k a1 Hk1), (H2 k a2 Hk2). reflexivity.
  - intros Hle w. unfold AttributeArrays_enable. rewrite !for_each_emit. cbn.
    replace (length (arrays s2))
      with (length (arrays s1) + (length (arrays s2) - length (arrays s1)))
      by lia.
    rewrite seq_app, map_app, app_assoc. eexists. reflexivity.
Qed.

Lemma separate_sets_share_attribute_slots_witness :
  exists more,
    w_log (snd (AttributeArrays_enable
                  (fst (run_adds [mkAdd Three KFloat 0 VUndefined;
                                  mkAdd Two KFloat 0 VUndefined]
                          (AttributeArrays None) sample_world))
                  sample_world))
    = w_log (snd (AttributeArrays_enable
                    (fst (run_adds [mkAdd Four KUByte 0 VUndefined]
                            (AttributeArrays (Some 3%Z)) sample_world))
                    sample_world)) ++ more.
Proof.
  apply (proj2 (separate_sets_share_attribute_slots (Some 3%Z) None
                  [mkAdd Four KUByte 0 VUndefined]
                  [mkAdd Three KFloat 0 VUndefined; mkAdd Two KFloat 0 VUndefined]
                  sample_world sample_world)).
  vm_compute. lia.
Defined.
